(** * converterdox: the [POST /convert] endpoint of [src/index.js]

    A shallow embedding of the request handler, of the three converter
    functions it dispatches to and of the multer storage callbacks, over an
    explicit model of what the handler acts on: the files of the uploads
    directory, the [res] object and the external tools (ffmpeg,
    libreoffice-convert, sharp), whose behaviour is left to an oracle. *)

From Stdlib Require Import Ascii.
From stdpp Require Import base strings pretty gmap list.

Local Open Scope string_scope.
Local Open Scope list_scope.

(** ** JavaScript values and errors *)

(** What [req.body.targetFormat] can be: a text field of a multipart form is
    a string, and a field that is absent reads as [undefined]. (A field
    repeated in one form, which multer hands over as an array, is left out.) *)
Inductive JsValue :=
  | JsUndefined
  | JsString (s : string).

(** Template-literal interpolation [`${v}`], also the property key of [o[v]]. *)
Definition template (v : JsValue) : string :=
  match v with
  | JsUndefined => "undefined"
  | JsString s => s
  end.

(** [v === 'lit'] *)
Definition strict_eq (v : JsValue) (lit : string) : bool :=
  match v with
  | JsUndefined => false
  | JsString s => String.eqb s lit
  end.

(** [xs.includes(v)] for an array of string literals. *)
Definition includes (xs : list string) (v : JsValue) : bool :=
  existsb (strict_eq v) xs.

Record JsError := { err_name : string; err_message : string }.

Definition new_Error (msg : string) : JsError :=
  {| err_name := "Error"; err_message := msg |}.

Definition new_TypeError (msg : string) : JsError :=
  {| err_name := "TypeError"; err_message := msg |}.

(** [Error.prototype.toString] *)
Definition error_toString (e : JsError) : string :=
  if String.eqb (err_name e) "" then err_message e
  else if String.eqb (err_message e) "" then err_name e
  else err_name e +:+ ": " +:+ err_message e.

(** [error.message || 'Conversion failed'] *)
Definition message_or (e : JsError) (dflt : string) : string :=
  if String.eqb (err_message e) "" then dflt else err_message e.

(** ** The world the handler acts on *)

(** File contents are opaque to the handler. *)
Definition Data := string.

Inductive Encoder := EncJpeg | EncPng | EncWebp.

(** The chain built on [ffmpeg(inputPath)] in [convertAudio]. *)
Record FfmpegCmd := {
  ff_input : string;
  ff_toFormat : JsValue;
  ff_audioCodec : string;
  ff_audioBitrate : string;
  ff_save : string;
}.

(** The chain built on [sharp(inputPath)] in [convertImage]. *)
Record SharpCmd := {
  sh_input : string;
  sh_encoder : Encoder;
  sh_quality : nat;
  sh_toFile : string;
}.

Inductive Converter := Audio | Document | Image.

(** What a run leaves behind for an observer: converter calls, external tool
    invocations, removals and [console.error] lines, oldest first. *)
Inductive Event :=
  | EvCall (c : Converter) (inputPath outputPath : string) (format : JsValue)
  | EvFfmpeg (cmd : FfmpegCmd)
  | EvLibre (ext : string)
  | EvSharp (cmd : SharpCmd)
  | EvUnlink (path : string)
  | EvConsoleError (label : string) (e : JsError).

Inductive ResBody :=
  | BodyJson (fields : list (string * string))
  | BodyPipe (path : string).

(** The [res] object: the status, the headers and the body of the reply, as
    the handler's calls and Express's [res.json] leave them. *)
Record Res := {
  statusCode : nat;
  headers : gmap string string;
  body : option ResBody;
}.

Record State := {
  st_disk : gmap string Data;
  st_res : Res;
  st_trace : list Event;
}.

Definition fresh_res : Res :=
  {| statusCode := 200; headers := ∅; body := None |}.

Definition init_state (disk : gmap string Data) : State :=
  {| st_disk := disk; st_res := fresh_res; st_trace := [] |}.

(** An external tool may leave a file at its output path and may fail,
    independently. *)
Record ToolOutcome := {
  written : option Data;
  failure : option JsError;
}.

(** The collaborators of the handler, not redesigned here. *)
Record Env := {
  dirname : string;
  ffmpeg_run : FfmpegCmd → gmap string Data → ToolOutcome;
  libre_convert : Data → string → Data + JsError;
  sharp_run : SharpCmd → gmap string Data → ToolOutcome;
}.

(** ** A state-and-exception monad for [async] function bodies *)

Inductive Completion (A : Type) :=
  | Normal (a : A)
  | Throw (e : JsError).
Arguments Normal {A} a.
Arguments Throw {A} e.

Definition M (A : Type) : Type := State → Completion A * State.

Definition ret {A} (a : A) : M A := λ s, (Normal a, s).

Definition throw {A} (e : JsError) : M A := λ s, (Throw e, s).

Definition bind {A B} (m : M A) (k : A → M B) : M B := λ s,
  match m s with
  | (Normal a, s') => k a s'
  | (Throw e, s') => (Throw e, s')
  end.

(** [try { m } catch (e) { h e }] *)
Definition try_catch {A} (m : M A) (h : JsError → M A) : M A := λ s,
  match m s with
  | (Normal a, s') => (Normal a, s')
  | (Throw e, s') => h e s'
  end.

Declare Scope js_scope.
Delimit Scope js_scope with js.
Notation "'let!' x ':=' m 'in' k" := (bind m (λ x, k))
  (at level 10, x name, m at level 100, k at level 200) : js_scope.
Notation "m1 '>>' m2" := (bind m1 (λ _, m2))
  (at level 100, m2 at level 200, right associativity) : js_scope.
Local Open Scope js_scope.

Definition get_disk : M (gmap string Data) := λ s, (Normal (st_disk s), s).

Definition set_disk (f : gmap string Data → gmap string Data) : M unit := λ s,
  (Normal tt,
   {| st_disk := f (st_disk s); st_res := st_res s; st_trace := st_trace s |}).

Definition set_res (f : Res → Res) : M unit := λ s,
  (Normal tt,
   {| st_disk := st_disk s; st_res := f (st_res s); st_trace := st_trace s |}).

Definition emit (e : Event) : M unit := λ s,
  (Normal tt,
   {| st_disk := st_disk s; st_res := st_res s;
      st_trace := st_trace s ++ [e] |}).

(** ** The [fs] binding

    Line 6 binds [fs] to the default export of ['fs/promises']. That namespace
    has the promise-returning [mkdir], [readFile], [writeFile] and [unlink]
    the file uses, and no [createReadStream] (streams are made by the
    callback module ['fs'] or by a [FileHandle]). The handler is written over
    the binding, so that both readings of line 121 can be stated. *)
Record FsBinding := { has_createReadStream : bool }.

Definition fs_promises : FsBinding := {| has_createReadStream := false |}.

(** A namespace that also offers [createReadStream], as line 121 expects. *)
Definition fs_with_streams : FsBinding := {| has_createReadStream := true |}.

Definition ENOENT (syscall path : string) : JsError :=
  new_Error ("ENOENT: no such file or directory, " +:+ syscall +:+ " '"
             +:+ path +:+ "'").

(** [await fs.readFile(path)] *)
Definition fs_readFile (path : string) : M Data := λ s,
  match st_disk s !! path with
  | Some d => (Normal d, s)
  | None => (Throw (ENOENT "open" path), s)
  end.

(** [await fs.writeFile(path, data)] *)
Definition fs_writeFile (path : string) (d : Data) : M unit :=
  set_disk (<[path := d]>).

(** [await fs.unlink(path)]: rejects when there is no such file, the one
    failure of a removal that is modelled. *)
Definition fs_unlink (path : string) : M unit :=
  emit (EvUnlink path) >>
  let! disk := get_disk in
  match disk !! path with
  | Some _ => set_disk (delete path)
  | None => throw (ENOENT "unlink" path)
  end.

(** [fs.createReadStream(path)]: calling a member the namespace does not have
    throws a [TypeError]. *)
Definition fs_createReadStream (fs : FsBinding) (path : string) : M unit :=
  if has_createReadStream fs then ret tt
  else throw (new_TypeError "fs.createReadStream is not a function").

(** [console.error(label, e)] *)
Definition console_error (label : string) (e : JsError) : M unit :=
  emit (EvConsoleError label e).

(** An external tool has run with [out] as its output path. *)
Definition settle (out : string) (o : ToolOutcome) : M unit :=
  match written o with
  | Some d => set_disk (<[out := d]>)
  | None => ret tt
  end >>
  match failure o with
  | Some e => throw e
  | None => ret tt
  end.

(** ** The [res] object *)

Definition dquote : string := String (Ascii.ascii_of_nat 34) "".

(** [res.setHeader(name, value)]; Node refuses an [undefined] value. *)
Definition res_setHeader (name : string) (value : option string) : M unit :=
  match value with
  | Some v =>
      set_res (λ r, {| statusCode := statusCode r;
                       headers := <[name := v]> (headers r);
                       body := body r |})
  | None =>
      throw (new_TypeError ("Invalid value " +:+ dquote +:+ "undefined"
                            +:+ dquote +:+ " for header " +:+ dquote
                            +:+ name +:+ dquote))
  end.

(** [res.status(code)] *)
Definition res_status (code : nat) : M unit :=
  set_res (λ r, {| statusCode := code; headers := headers r;
                   body := body r |}).

(** The [Content-Type] of a JSON reply. Express's [res.json] keeps a
    [Content-Type] that is already set and takes [application/json]
    otherwise; its [res.send] then writes the string body as utf-8 and says
    so in the header. The charset is appended, which is what Express does to
    a media type that has no parameters, as those of [contentTypes] have
    none. *)
Definition json_content_type (current : option string) : string :=
  default "application/json" current +:+ "; charset=utf-8".

(** [res.json(obj)] *)
Definition res_json (fields : list (string * string)) : M unit :=
  set_res (λ r,
    {| statusCode := statusCode r;
       headers := <["Content-Type" :=
                      json_content_type (headers r !! "Content-Type")]>
                    (headers r);
       body := Some (BodyJson fields) |}).

(** [fileStream.pipe(res)] *)
Definition res_pipe (path : string) : M unit :=
  set_res (λ r, {| statusCode := statusCode r; headers := headers r;
                   body := Some (BodyPipe path) |}).

(** ** Upload storage (lines 21-28) *)

(** [path.join(__dirname, 'uploads')] *)
Definition storage_destination (env : Env) : string :=
  dirname env +:+ "/uploads".

(** [Date.now() + '-' + file.originalname]; [now] is the clock reading, an
    integer number of milliseconds, rendered in decimal. *)
Definition storage_filename (now : Z) (originalname : string) : string :=
  pretty now +:+ "-" +:+ originalname.

(** [path.join(__dirname, 'uploads', name)] for a [name] that is a plain file
    name: one without a path separator, which [path.join] appends as it is.
    (A name with separators is normalised by [path.join], segment by
    segment; that is left out, and a statement that depends on how the path
    is spelled is made for plain names.) *)
Definition uploads_path (env : Env) (name : string) : string :=
  storage_destination env +:+ "/" +:+ name.

(** [req.file] as multer fills it in. *)
Record UploadedFile := { originalname : string; path : string }.

(** [req.body] *)
Record Body := { targetFormat : JsValue }.

(** [req.body] is [undefined] unless the request is multipart; [req.file] is
    [undefined] when the form has no file field. *)
Record Request := {
  req_body : option Body;
  req_file : option UploadedFile;
}.

(** Two requests are told apart by their arrival, not by what they carry. *)
Record Arrival := {
  arrival_id : nat;
  arrival_clock : Z;
  arrival_originalname : string;
}.

Definition stored_name (a : Arrival) : string :=
  storage_filename (arrival_clock a) (arrival_originalname a).

(** What multer's disk storage does with the two callbacks for a file field:
    the bytes go to [destination/filename], and [req.file] records where. *)
Definition multer_store (env : Env) (clock : Z) (name : string) (d : Data)
    (disk : gmap string Data) : UploadedFile * gmap string Data :=
  let p := uploads_path env (storage_filename clock name) in
  ({| originalname := name; path := p |}, <[p := d]> disk).

(** A multipart form: the [targetFormat] text field and the file field with
    its original name and bytes, either of which may be missing. *)
Record Form := {
  field_targetFormat : JsValue;
  field_file : option (string * Data);
}.

(** [upload.single('file')] on a multipart request. *)
Definition upload_single (env : Env) (clock : Z) (form : Form)
    (disk : gmap string Data) : Request * gmap string Data :=
  let b := Some {| targetFormat := field_targetFormat form |} in
  match field_file form with
  | Some (name, d) =>
      let '(file, disk') := multer_store env clock name d disk in
      ({| req_body := b; req_file := Some file |}, disk')
  | None => ({| req_body := b; req_file := None |}, disk)
  end.

(** ** The converters (lines 36-66) *)

Definition convertAudio (env : Env) (inputPath outputPath : string)
    (format : JsValue) : M unit :=
  emit (EvCall Audio inputPath outputPath format) >>
  let cmd := {| ff_input := inputPath;
                ff_toFormat := format;
                ff_audioCodec := "libmp3lame";
                ff_audioBitrate := "192k";
                ff_save := outputPath |} in
  emit (EvFfmpeg cmd) >>
  let! disk := get_disk in
  settle outputPath (ffmpeg_run env cmd disk).

Definition convertLibreOffice (env : Env) (input : Data) (ext : string)
    : M Data :=
  emit (EvLibre ext) >>
  match libre_convert env input ext with
  | inl d => ret d
  | inr e => throw e
  end.

Definition convertDocument (env : Env) (inputPath outputPath : string)
    (targetFormat : JsValue) : M unit :=
  emit (EvCall Document inputPath outputPath targetFormat) >>
  let! inputBuffer := fs_readFile inputPath in
  let outputExtension := "." +:+ template targetFormat in
  let! outputBuffer := convertLibreOffice env inputBuffer outputExtension in
  fs_writeFile outputPath outputBuffer.

(** [await image.<enc>({ quality }).toFile(outputPath)] *)
Definition sharp_toFile (env : Env) (inputPath : string) (enc : Encoder)
    (quality : nat) (outputPath : string) : M unit :=
  let cmd := {| sh_input := inputPath; sh_encoder := enc;
                sh_quality := quality; sh_toFile := outputPath |} in
  emit (EvSharp cmd) >>
  let! disk := get_disk in
  settle outputPath (sharp_run env cmd disk).

Definition convertImage (env : Env) (inputPath outputPath : string)
    (format : JsValue) : M unit :=
  emit (EvCall Image inputPath outputPath format) >>
  if strict_eq format "jpg" || strict_eq format "jpeg" then
    sharp_toFile env inputPath EncJpeg 90 outputPath
  else if strict_eq format "png" then
    sharp_toFile env inputPath EncPng 90 outputPath
  else if strict_eq format "webp" then
    sharp_toFile env inputPath EncWebp 90 outputPath
  else ret tt.

(** ** The handler (lines 69-148) *)

Definition supportedAudioFormats : list string := ["mp3"; "wav"; "ogg"; "m4a"].
Definition supportedImageFormats : list string :=
  ["jpg"; "jpeg"; "png"; "webp"].
Definition supportedDocFormats : list string := ["pdf"; "docx"; "txt"].

Definition contentTypes : gmap string string :=
  list_to_map [
    ("mp3", "audio/mpeg");
    ("wav", "audio/wav");
    ("ogg", "audio/ogg");
    ("m4a", "audio/mp4");
    ("pdf", "application/pdf");
    ("docx",
     "application/vnd.openxmlformats-officedocument.wordprocessingml.document");
    ("txt", "text/plain");
    ("jpg", "image/jpeg");
    ("jpeg", "image/jpeg");
    ("png", "image/png");
    ("webp", "image/webp")
  ].

(** [`${Date.now()}-converted.${targetFormat}`] *)
Definition outputFileName (now : Z) (targetFormat : JsValue) : string :=
  pretty now +:+ "-converted." +:+ template targetFormat.

(** Lines 105-114: convert based on target format. *)
Definition dispatch (env : Env) (inputPath outputPath : string)
    (targetFormat : JsValue) : M unit :=
  if includes supportedAudioFormats targetFormat then
    convertAudio env inputPath outputPath targetFormat
  else if includes supportedDocFormats targetFormat then
    convertDocument env inputPath outputPath targetFormat
  else if includes supportedImageFormats targetFormat then
    convertImage env inputPath outputPath targetFormat
  else
    throw (new_Error ("Conversion to " +:+ template targetFormat
                      +:+ " is not supported")).

(** How the handler function returns: plainly, or with the ['end'] listener
    of lines 125-132 registered on the stream it has piped. *)
Inductive HandlerExit :=
  | Returned
  | Listening (inputPath outputPath : string).

(** Lines 125-132: the ['end'] listener. *)
Definition on_end (inputPath outputPath : string) : M unit :=
  try_catch
    (fs_unlink inputPath >>
     fs_unlink outputPath)
    (λ cleanupError, console_error "Error cleaning up files:" cleanupError).

(** Lines 134-141: clean up input file if it exists. *)
Definition cleanup_input (req : Request) : M unit :=
  match req_file req with
  | Some file =>
      try_catch
        (fs_unlink (path file))
        (λ cleanupError,
           console_error "Error cleaning up input file:" cleanupError)
  | None => ret tt
  end.

(** Lines 70-132: the [try] block. [now] is the clock reading of line 79.
    The [sourceFormat] of line 83 is computed and never used; it is left
    out. *)
Definition try_block (fs : FsBinding) (env : Env) (now : Z) (req : Request)
    : M HandlerExit :=
  match req_body req with
  | None =>
      throw (new_TypeError
        "Cannot destructure property 'targetFormat' of 'req.body' as it is undefined.")
  | Some b =>
      let targetFormat := targetFormat b in
      match req_file req with
      | None =>
          res_status 400 >>
          res_json [("error", "No file uploaded")] >>
          ret Returned
      | Some file =>
          let inputPath := path file in
          let outputFileName := outputFileName now targetFormat in
          let outputPath := uploads_path env outputFileName in
          dispatch env inputPath outputPath targetFormat >>
          res_setHeader "Content-Type"
            (contentTypes !! template targetFormat) >>
          res_setHeader "Content-Disposition"
            (Some ("attachment; filename=" +:+ outputFileName)) >>
          fs_createReadStream fs outputPath >>
          res_pipe outputPath >>
          ret (Listening inputPath outputPath)
      end
  end.

(** Lines 133-147: the [catch] block. *)
Definition catch_block (req : Request) (error : JsError) : M HandlerExit :=
  cleanup_input req >>
  res_status 500 >>
  res_json [("error", message_or error "Conversion failed");
            ("details", error_toString error)] >>
  ret Returned.

Definition convert_handler (fs : FsBinding) (env : Env) (now : Z)
    (req : Request) : M HandlerExit :=
  try_catch (try_block fs env now req) (catch_block req).

(** What becomes of the piped stream: it is read to its end, or it stops
    short (read error, client gone) and ['end'] is never emitted. *)
Inductive StreamFate := EmitsEnd | NeverEnds.

(** One request from the handler's entry to the end of its handling scope. *)
Definition serve (fs : FsBinding) (env : Env) (now : Z) (fate : StreamFate)
    (req : Request) (s : State) : State :=
  match convert_handler fs env now req s with
  | (Normal (Listening inputPath outputPath), s') =>
      match fate with
      | EmitsEnd => snd (on_end inputPath outputPath s')
      | NeverEnds => s'
      end
  | (_, s') => s'
  end.

(** The program as written: [fs] is the ['fs/promises'] namespace. *)
Definition post_convert : Env → Z → StreamFate → Request → State → State :=
  serve fs_promises.

(** The route on a multipart request: the upload middleware, then the
    handler. [clock] and [now] are the readings of lines 26 and 79. *)
Definition route (env : Env) (clock now : Z) (fate : StreamFate) (form : Form)
    (disk : gmap string Data) : State :=
  let '(req, disk') := upload_single env clock form disk in
  post_convert env now fate req (init_state disk').

(** ** Reading a trace *)

(** The events of a conversion: a converter call or a tool invocation. *)
Definition is_conversion (e : Event) : bool :=
  match e with
  | EvCall _ _ _ _ | EvFfmpeg _ | EvLibre _ | EvSharp _ => true
  | EvUnlink _ | EvConsoleError _ _ => false
  end.

Definition conversions (t : list Event) : list Event :=
  List.filter is_conversion t.

(** The supported set, in the order of the three arrays of lines 86-88 as
    the dispatch consults them. *)
Definition supportedFormats : list string :=
  supportedAudioFormats ++ supportedDocFormats ++ supportedImageFormats.

(** ** Scenarios to run the model on *)

Definition tool_ok (d : Data) : ToolOutcome :=
  {| written := Some d; failure := None |}.

(** Every tool succeeds and writes its output. *)
Definition env_ok : Env :=
  {| dirname := "/app";
     ffmpeg_run := λ _ _, tool_ok "audio-bytes";
     libre_convert := λ _ _, inl "document-bytes";
     sharp_run := λ _ _, tool_ok "image-bytes" |}.

(** ffmpeg opens its output file and then fails. *)
Definition env_ffmpeg_breaks : Env :=
  {| dirname := "/app";
     ffmpeg_run := λ _ _,
       {| written := Some "";
          failure := Some (new_Error "ffmpeg exited with code 1") |};
     libre_convert := λ _ _, inl "document-bytes";
     sharp_run := λ _ _, tool_ok "image-bytes" |}.

Definition sample_upload : UploadedFile :=
  {| originalname := "sample.mp3";
     path := "/app/uploads/1700000000000-sample.mp3" |}.

Definition sample_disk : gmap string Data :=
  {[ "/app/uploads/1700000000000-sample.mp3" := "mp3-bytes" ]}.

Definition request_for (fmt : JsValue) : Request :=
  {| req_body := Some {| targetFormat := fmt |};
     req_file := Some sample_upload |}.

(** ** Vocabulary of the statements *)

Definition with_trace (s : State) (t : list Event) : State :=
  {| st_disk := st_disk s; st_res := st_res s; st_trace := t |}.

(** What the catch block's cleanup leaves in the trace. *)
Definition cleanup_events (disk : gmap string Data) (p : string)
    : list Event :=
  match disk !! p with
  | Some _ => [EvUnlink p]
  | None =>
      [EvUnlink p;
       EvConsoleError "Error cleaning up input file:" (ENOENT "unlink" p)]
  end.

Definition error_reply (r : Res) (error : JsError) : Res :=
  {| statusCode := 500;
     headers := <["Content-Type" :=
                    json_content_type (headers r !! "Content-Type")]>
                  (headers r);
     body := Some (BodyJson [("error", message_or error "Conversion failed");
                             ("details", error_toString error)]) |}.

Definition no_file_reply (r : Res) : Res :=
  {| statusCode := 400;
     headers := <["Content-Type" :=
                    json_content_type (headers r !! "Content-Type")]>
                  (headers r);
     body := Some (BodyJson [("error", "No file uploaded")]) |}.

Definition on_end_events (disk : gmap string Data) (i o : string)
    : list Event :=
  match disk !! i with
  | None =>
      [EvUnlink i; EvConsoleError "Error cleaning up files:" (ENOENT "unlink" i)]
  | Some _ =>
      match delete i disk !! o with
      | Some _ => [EvUnlink i; EvUnlink o]
      | None =>
          [EvUnlink i; EvUnlink o;
           EvConsoleError "Error cleaning up files:" (ENOENT "unlink" o)]
      end
  end.

Definition on_end_disk (disk : gmap string Data) (i o : string)
    : gmap string Data :=
  match disk !! i with
  | None => disk
  | Some _ => delete o (delete i disk)
  end.

(** The reply once the headers of lines 117-118 are set. *)
Definition with_headers (r : Res) (mime name : string) : Res :=
  {| statusCode := statusCode r;
     headers := <["Content-Disposition" := "attachment; filename=" +:+ name]>
                  (<["Content-Type" := mime]> (headers r));
     body := body r |}.

Definition piped (r : Res) (p : string) : Res :=
  {| statusCode := statusCode r; headers := headers r;
     body := Some (BodyPipe p) |}.

Definition audio_cmd (i o : string) (v : JsValue) : FfmpegCmd :=
  {| ff_input := i; ff_toFormat := v; ff_audioCodec := "libmp3lame";
     ff_audioBitrate := "192k"; ff_save := o |}.

Definition sharp_cmd (i : string) (enc : Encoder) (o : string) : SharpCmd :=
  {| sh_input := i; sh_encoder := enc; sh_quality := 90; sh_toFile := o |}.

Fixpoint no_dash (s : string) : bool :=
  match s with
  | EmptyString => true
  | String c r => negb (Ascii.eqb c "-"%char) && no_dash r
  end.

(** Further scenarios. *)

Definition arrival_a : Arrival :=
  {| arrival_id := 1; arrival_clock := 1700000000000;
     arrival_originalname := "sample.mp3" |}.

Definition arrival_b : Arrival :=
  {| arrival_id := 2; arrival_clock := 1700000000000;
     arrival_originalname := "sample.mp3" |}.

Definition output_only_disk : gmap string Data :=
  {[ "/app/uploads/1700000000005-converted.wav" := "audio-bytes" ]}.

Definition wav_out : string := "/app/uploads/1700000000005-converted.wav".

(** With a binding that makes streams, that state is reached by two
    requests that share a stored input name: both convert, the first
    listener removes the shared input, the second one fails on it and leaves
    its own output behind. *)
Definition two_requests_one_input : gmap string Data :=
  let reqA := request_for (JsString "wav") in
  let reqB := request_for (JsString "wav") in
  let sA := snd (convert_handler fs_with_streams env_ok 1700000000005 reqA
                   (init_state sample_disk)) in
  let sB := snd (convert_handler fs_with_streams env_ok 1700000000006 reqB
                   (init_state (st_disk sA))) in
  let endA := snd (on_end (path sample_upload)
                     "/app/uploads/1700000000005-converted.wav"
                     (init_state (st_disk sB))) in
  let endB := snd (on_end (path sample_upload)
                     "/app/uploads/1700000000006-converted.wav"
                     (init_state (st_disk endA))) in
  st_disk endB.

(** The removals a trace records, oldest first. *)
Definition unlinks (t : list Event) : list string :=
  omap (λ e, match e with EvUnlink p => Some p | _ => None end) t.

(** libreoffice-convert rejects every input. *)
Definition env_libre_breaks : Env :=
  {| dirname := "/app";
     ffmpeg_run := λ _ _, tool_ok "audio-bytes";
     libre_convert := λ _ _, inr (new_Error "Document conversion failed");
     sharp_run := λ _ _, tool_ok "image-bytes" |}.

(** sharp rejects with an error that carries no message and writes
    nothing. *)
Definition env_sharp_silent : Env :=
  {| dirname := "/app";
     ffmpeg_run := λ _ _, tool_ok "audio-bytes";
     libre_convert := λ _ _, inl "document-bytes";
     sharp_run := λ _ _,
       {| written := None;
          failure := Some {| err_name := "Error"; err_message := "" |} |} |}.

Definition docx_upload : UploadedFile :=
  {| originalname := "report.docx";
     path := "/app/uploads/1700000000000-report.docx" |}.

Definition docx_disk : gmap string Data :=
  {[ "/app/uploads/1700000000000-report.docx" := "docx-bytes" ]}.

Definition pdf_out : string := "/app/uploads/1700000000005-converted.pdf".

(** The converters a trace records as called, oldest first. *)
Definition calls (t : list Event) : list Converter :=
  omap (λ e, match e with EvCall c _ _ _ => Some c | _ => None end) t.

(** An upload next to a file of another request. *)
Definition shared_disk : gmap string Data :=
  {[ "/app/uploads/1700000000000-sample.mp3" := "mp3-bytes";
     "/app/uploads/1699999999999-other.png" := "png-bytes" ]}.

(** The uploads directory when a stream has been read to its end. *)
Definition streamed_disk : gmap string Data :=
  {[ "/app/uploads/1700000000000-sample.mp3" := "mp3-bytes";
     "/app/uploads/1700000000005-converted.wav" := "audio-bytes";
     "/app/uploads/1699999999999-other.png" := "png-bytes" ]}.

(** A plain file name: no path separator in it, neither the slash nor the
    backslash (character 92). *)
Fixpoint no_separator (s : string) : bool :=
  match s with
  | EmptyString => true
  | String c r =>
      negb (Ascii.eqb c "/"%char)
      && negb (Ascii.eqb c (Ascii.ascii_of_nat 92))
      && no_separator r
  end.

(** ** Proof steps *)

(** Closes [s ∉ [s1; ...; sn]] and [s ∈ [s1; ...; sn]] on string literals. *)
Ltac not_listed :=
  let H := fresh in
  intros H;
  repeat (apply elem_of_cons in H as [H|H]; [discriminate H|]);
  by apply elem_of_nil in H.

Ltac listed :=
  repeat first [by apply list_elem_of_here | apply list_elem_of_further].

(** Splits [f ∈ [s1; ...; sn]] into the [n] cases [f = si]. *)
Ltac each_listed H :=
  repeat (apply elem_of_cons in H as [->|H]); [..|by apply elem_of_nil in H].

(** Splits [e ∈ [e1; ...; en]], dropping the [ei] of another shape. *)
Ltac which_event H :=
  repeat (apply elem_of_cons in H as [H|H]; [try discriminate H|]);
  try (by apply elem_of_nil in H).

(** * Properties *)

(** ** Array membership *)

Lemma includes_elem_of xs s : includes xs (JsString s) = true ↔ s ∈ xs.
Proof.
  unfold includes. rewrite existsb_exists. setoid_rewrite <-list_elem_of_In.
  split.
  - intros (x & Hx & Heq). apply String.eqb_eq in Heq. by subst.
  - intros Hs. exists s. split; [done|]. apply String.eqb_refl.
Qed.

Lemma includes_undefined xs : includes xs JsUndefined = false.
Proof. induction xs; naive_solver. Qed.

Lemma includes_true xs v :
  includes xs v = true → ∃ s, v = JsString s ∧ s ∈ xs.
Proof.
  destruct v as [|s]; [by rewrite includes_undefined|].
  intros H. exists s. split; [done|]. by apply includes_elem_of.
Qed.

Lemma includes_not_elem_of xs s : s ∉ xs → includes xs (JsString s) = false.
Proof.
  intros H. apply not_true_is_false. by rewrite includes_elem_of.
Qed.

Lemma strict_eq_unlisted v (xs : list string) lit :
  v ∉ JsString <$> xs → lit ∈ xs → strict_eq v lit = false.
Proof.
  intros Hv Hlit. destruct v as [|f]; [done|]. cbn.
  apply String.eqb_neq. intros ->. apply Hv.
  by apply list_elem_of_fmap_2.
Qed.

(** ** Traces *)

Lemma conversions_app t1 t2 :
  conversions (t1 ++ t2) = conversions t1 ++ conversions t2.
Proof. apply List.filter_app. Qed.

Lemma elem_of_conversions e t :
  e ∈ t → is_conversion e = true → e ∈ conversions t.
Proof.
  intros He Hc. apply list_elem_of_In, List.filter_In.
  split; [by apply list_elem_of_In|done].
Qed.

Lemma conversions_cleanup_events disk p :
  conversions (cleanup_events disk p) = [].
Proof. unfold cleanup_events. by destruct (disk !! p). Qed.

Lemma conversions_on_end_events disk i o :
  conversions (on_end_events disk i o) = [].
Proof.
  unfold on_end_events.
  destruct (disk !! i); [|done]. by destruct (delete i disk !! o).
Qed.

Create Rewrite HintDb trace.
#[local] Hint Rewrite conversions_app conversions_cleanup_events
  conversions_on_end_events @app_nil_r : trace.

(** ** The cleanup code *)

Lemma fs_unlink_run p s :
  fs_unlink p s =
  match st_disk s !! p with
  | Some _ =>
      (Normal tt,
       {| st_disk := delete p (st_disk s); st_res := st_res s;
          st_trace := st_trace s ++ [EvUnlink p] |})
  | None =>
      (Throw (ENOENT "unlink" p), with_trace s (st_trace s ++ [EvUnlink p]))
  end.
Proof.
  unfold fs_unlink, bind, emit, get_disk. cbn.
  by destruct (st_disk s !! p).
Qed.

Lemma cleanup_input_run b file s :
  cleanup_input {| req_body := b; req_file := Some file |} s =
  (Normal tt,
   {| st_disk := delete (path file) (st_disk s); st_res := st_res s;
      st_trace := st_trace s ++ cleanup_events (st_disk s) (path file) |}).
Proof.
  unfold cleanup_input, try_catch, cleanup_events, req_file.
  rewrite fs_unlink_run.
  destruct (st_disk s !! path file) eqn:E; [done|].
  unfold console_error, emit, with_trace. cbn.
  rewrite <-(assoc_L (++)). by rewrite delete_id.
Qed.

Lemma catch_block_run b file error s :
  catch_block {| req_body := b; req_file := Some file |} error s =
  (Normal Returned,
   {| st_disk := delete (path file) (st_disk s);
      st_res := error_reply (st_res s) error;
      st_trace := st_trace s ++ cleanup_events (st_disk s) (path file) |}).
Proof. unfold catch_block, bind. by rewrite cleanup_input_run. Qed.

Lemma on_end_run i o s :
  on_end i o s =
  (Normal tt,
   {| st_disk := on_end_disk (st_disk s) i o; st_res := st_res s;
      st_trace := st_trace s ++ on_end_events (st_disk s) i o |}).
Proof.
  unfold on_end, try_catch, bind, on_end_events, on_end_disk.
  rewrite fs_unlink_run.
  destruct (st_disk s !! i) eqn:Ei.
  - rewrite fs_unlink_run. cbn [st_disk st_trace st_res].
    destruct (delete i (st_disk s) !! o) eqn:Eo;
      unfold console_error, emit, with_trace; cbn;
      rewrite <-?(assoc_L (++)); [done|].
    by rewrite (delete_id (delete i (st_disk s)) o).
  - unfold console_error, emit, with_trace; cbn.
    by rewrite <-(assoc_L (++)).
Qed.

(** Neither cleanup site lets a failed removal escape: the listener and the
    catch block's cleanup always complete normally and leave [res] alone. *)
Lemma on_end_never_throws i o s :
  fst (on_end i o s) = Normal tt ∧ st_res (snd (on_end i o s)) = st_res s.
Proof. by rewrite on_end_run. Qed.

Lemma cleanup_input_never_throws req s :
  fst (cleanup_input req s) = Normal tt ∧
  st_res (snd (cleanup_input req s)) = st_res s.
Proof.
  destruct req as [b [file|]]; [|done]. by rewrite cleanup_input_run.
Qed.

(** When the input file is there, the listener removes both files. *)
Lemma on_end_removes_both i o s :
  is_Some (st_disk s !! i) →
  let disk' := st_disk (snd (on_end i o s)) in
  disk' !! i = None ∧ disk' !! o = None.
Proof.
  intros [d Hd]. rewrite on_end_run. cbn [snd st_disk].
  unfold on_end_disk. rewrite Hd. split; [|apply lookup_delete_eq].
  destruct (decide (o = i)) as [->|Hne].
  - apply lookup_delete_eq.
  - rewrite lookup_delete_ne by done. apply lookup_delete_eq.
Qed.

(** ** The converters and the dispatch *)

Lemma settle_trace out o s : st_trace (snd (settle out o s)) = st_trace s.
Proof.
  unfold settle, bind, set_disk, ret, throw.
  by destruct (written o), (failure o).
Qed.

Lemma settle_res out o s : st_res (snd (settle out o s)) = st_res s.
Proof.
  unfold settle, bind, set_disk, ret, throw.
  by destruct (written o), (failure o).
Qed.

Lemma convertAudio_trace env i o v s :
  st_trace (snd (convertAudio env i o v s)) =
  st_trace s ++ [EvCall Audio i o v; EvFfmpeg (audio_cmd i o v)].
Proof.
  unfold convertAudio, bind, emit, get_disk. cbn -[settle].
  rewrite settle_trace. cbn. by rewrite <-(assoc_L (++)).
Qed.

Lemma convertDocument_trace env i o v s :
  st_trace (snd (convertDocument env i o v s)) =
  st_trace s ++ EvCall Document i o v ::
    match st_disk s !! i with
    | Some _ => [EvLibre ("." +:+ template v)]
    | None => []
    end.
Proof.
  unfold convertDocument, convertLibreOffice, bind, emit, fs_readFile,
    fs_writeFile, set_disk, ret, throw.
  cbn. destruct (st_disk s !! i) as [d|]; cbn; [|done].
  rewrite <-(assoc_L (++)). by destruct (libre_convert env d _).
Qed.

Lemma sharp_toFile_trace env i enc o s :
  st_trace (snd (sharp_toFile env i enc 90 o s)) =
  st_trace s ++ [EvSharp (sharp_cmd i enc o)].
Proof.
  unfold sharp_toFile, bind, emit, get_disk. cbn -[settle].
  by rewrite settle_trace.
Qed.

Lemma convertImage_trace env i o f :
  f ∈ supportedImageFormats →
  ∃ enc,
    (∀ s, st_trace (snd (convertImage env i o (JsString f) s)) =
          st_trace s ++ [EvCall Image i o (JsString f);
                         EvSharp (sharp_cmd i enc o)]) ∧
    ((f = "jpg" ∨ f = "jpeg") ∧ enc = EncJpeg ∨
     f = "png" ∧ enc = EncPng ∨
     f = "webp" ∧ enc = EncWebp).
Proof.
  intros Hf.
  each_listed Hf;
    [exists EncJpeg | exists EncJpeg | exists EncPng | exists EncWebp];
    (split; [|naive_solver]); intros s;
    unfold convertImage, bind, emit; cbn -[sharp_toFile];
    rewrite sharp_toFile_trace; cbn; by rewrite <-(assoc_L (++)).
Qed.

Lemma convertImage_unlisted env i o v s :
  v ∉ JsString <$> supportedImageFormats →
  convertImage env i o v s =
  (Normal tt, with_trace s (st_trace s ++ [EvCall Image i o v])).
Proof.
  intros Hv. unfold convertImage, bind, emit. cbn.
  rewrite !(strict_eq_unlisted v supportedImageFormats) by (done || listed).
  done.
Qed.

(** For the same paths, [jpg] and [jpeg] are one and the same sharp run. *)
Lemma jpg_jpeg_same_run env i o s :
  let r1 := convertImage env i o (JsString "jpg") s in
  let r2 := convertImage env i o (JsString "jpeg") s in
  fst r1 = fst r2 ∧
  st_disk (snd r1) = st_disk (snd r2) ∧
  conversions (st_trace (snd r1)) =
    conversions (st_trace s) ++
    [EvCall Image i o (JsString "jpg"); EvSharp (sharp_cmd i EncJpeg o)] ∧
  conversions (st_trace (snd r2)) =
    conversions (st_trace s) ++
    [EvCall Image i o (JsString "jpeg"); EvSharp (sharp_cmd i EncJpeg o)].
Proof.
  unfold convertImage, sharp_toFile, settle, bind, emit, get_disk, set_disk,
    ret, throw. cbn.
  destruct (sharp_run env _ _) as [[d|] [e|]]; cbn;
    rewrite <-!(assoc_L (++)), !conversions_app; done.
Qed.

(** Every supported format has exactly one entry in [contentTypes]. *)
Lemma contentTypes_supported f :
  f ∈ supportedFormats → ∃ mime, contentTypes !! f = Some mime.
Proof. intros Hf. each_listed Hf; by eexists. Qed.

Lemma dispatch_audio env i o f :
  f ∈ supportedAudioFormats →
  dispatch env i o (JsString f) = convertAudio env i o (JsString f).
Proof.
  intros Hf. unfold dispatch.
  by rewrite (proj2 (includes_elem_of supportedAudioFormats f) Hf).
Qed.

Lemma dispatch_document env i o f :
  f ∈ supportedDocFormats →
  dispatch env i o (JsString f) = convertDocument env i o (JsString f).
Proof. intros Hf. by each_listed Hf. Qed.

Lemma dispatch_image env i o f :
  f ∈ supportedImageFormats →
  dispatch env i o (JsString f) = convertImage env i o (JsString f).
Proof. intros Hf. by each_listed Hf. Qed.

Lemma dispatch_unsupported env i o v s :
  includes supportedFormats v = false →
  dispatch env i o v s =
  (Throw (new_Error ("Conversion to " +:+ template v +:+ " is not supported")),
   s).
Proof.
  unfold supportedFormats, includes. rewrite !existsb_app, !orb_false_iff.
  intros (Ha & Hd & Hi). unfold dispatch, includes. by rewrite Ha, Hd, Hi.
Qed.

(** Converting never touches [res]. *)
Lemma dispatch_res env i o v s : st_res (snd (dispatch env i o v s)) = st_res s.
Proof.
  unfold dispatch.
  destruct (includes supportedAudioFormats v).
  { unfold convertAudio, bind, emit, get_disk. cbn -[settle].
    by rewrite settle_res. }
  destruct (includes supportedDocFormats v).
  { unfold convertDocument, convertLibreOffice, bind, emit, fs_readFile,
      fs_writeFile, set_disk, ret, throw. cbn.
    destruct (st_disk s !! i) as [d|]; cbn; [|done].
    by destruct (libre_convert env d _). }
  destruct (includes supportedImageFormats v); [|done].
  unfold convertImage, sharp_toFile, bind, emit, get_disk.
  cbn -[settle].
  repeat case_match; cbn -[settle]; by rewrite ?settle_res.
Qed.

Lemma dispatch_calls_image env i o v s i' o' v' :
  conversions (st_trace s) = [] →
  EvCall Image i' o' v' ∈ conversions (st_trace (snd (dispatch env i o v s))) →
  v' = v ∧ includes supportedImageFormats v = true.
Proof.
  intros Hs. unfold dispatch.
  destruct (includes supportedAudioFormats v) eqn:Ha.
  { rewrite convertAudio_trace, conversions_app, Hs. cbn.
    intros H. which_event H. }
  destruct (includes supportedDocFormats v) eqn:Hd.
  { rewrite convertDocument_trace, conversions_app, Hs.
    destruct (st_disk s !! i); cbn; intros H; which_event H. }
  destruct (includes supportedImageFormats v) eqn:Hi.
  - destruct (includes_true _ _ Hi) as (f & -> & Hf).
    destruct (convertImage_trace env i o f Hf) as (enc & Ht & _).
    rewrite Ht, conversions_app, Hs. cbn.
    intros H. which_event H. by injection H as _ _ ->.
  - cbn. rewrite Hs. by intros ?%elem_of_nil.
Qed.

(** ** One request, from the handler's entry to the end of its scope *)

Section Serve.
Context (fs : FsBinding) (env : Env) (now : Z) (fate : StreamFate).

Lemma serve_no_file b s :
  serve fs env now fate {| req_body := Some b; req_file := None |} s =
  {| st_disk := st_disk s; st_res := no_file_reply (st_res s);
     st_trace := st_trace s |}.
Proof. done. Qed.

(** Whatever the [try] block throws, with a file at hand the catch block
    removes it and sends the error reply. *)
Lemma serve_throw b file e s s1 :
  try_block fs env now {| req_body := b; req_file := Some file |} s
    = (Throw e, s1) →
  serve fs env now fate {| req_body := b; req_file := Some file |} s =
  {| st_disk := delete (path file) (st_disk s1);
     st_res := error_reply (st_res s1) e;
     st_trace := st_trace s1 ++ cleanup_events (st_disk s1) (path file) |}.
Proof.
  intros H. unfold serve, convert_handler, try_catch.
  by rewrite H, catch_block_run.
Qed.

Lemma serve_unsupported file v s :
  includes supportedFormats v = false →
  serve fs env now fate
    {| req_body := Some {| targetFormat := v |}; req_file := Some file |} s =
  {| st_disk := delete (path file) (st_disk s);
     st_res := error_reply (st_res s)
       (new_Error ("Conversion to " +:+ template v +:+ " is not supported"));
     st_trace := st_trace s ++ cleanup_events (st_disk s) (path file) |}.
Proof.
  intros Hv. apply serve_throw.
  unfold try_block, bind. cbn [req_body req_file targetFormat].
  by rewrite dispatch_unsupported.
Qed.

Lemma serve_dispatch_throw b file e s s1 :
  let v := targetFormat b in
  dispatch env (path file) (uploads_path env (outputFileName now v)) v s
    = (Throw e, s1) →
  serve fs env now fate {| req_body := Some b; req_file := Some file |} s =
  {| st_disk := delete (path file) (st_disk s1);
     st_res := error_reply (st_res s1) e;
     st_trace := st_trace s1 ++ cleanup_events (st_disk s1) (path file) |}.
Proof.
  intros v H. apply serve_throw.
  unfold try_block, bind. cbn [req_body req_file]. fold v. by rewrite H.
Qed.

(** As written, line 121 throws and the catch block takes over. *)
Lemma serve_converted_no_stream b file mime s s1 :
  let v := targetFormat b in
  let name := outputFileName now v in
  dispatch env (path file) (uploads_path env name) v s = (Normal tt, s1) →
  contentTypes !! template v = Some mime →
  has_createReadStream fs = false →
  serve fs env now fate {| req_body := Some b; req_file := Some file |} s =
  {| st_disk := delete (path file) (st_disk s1);
     st_res := error_reply (with_headers (st_res s1) mime name)
                 (new_TypeError "fs.createReadStream is not a function");
     st_trace := st_trace s1 ++ cleanup_events (st_disk s1) (path file) |}.
Proof.
  intros v name H Hmime Hfs. erewrite serve_throw; last first.
  { unfold try_block, bind. cbn [req_body req_file]. fold v name.
    rewrite H, Hmime. unfold fs_createReadStream. rewrite Hfs. done. }
  done.
Qed.

(** With a binding that makes streams, the file is piped and the listener
    waits for ['end']. *)
Lemma serve_converted_stream b file mime s s1 :
  let v := targetFormat b in
  let name := outputFileName now v in
  let out := uploads_path env name in
  let s2 := {| st_disk := st_disk s1;
               st_res := piped (with_headers (st_res s1) mime name) out;
               st_trace := st_trace s1 |} in
  dispatch env (path file) out v s = (Normal tt, s1) →
  contentTypes !! template v = Some mime →
  has_createReadStream fs = true →
  serve fs env now fate {| req_body := Some b; req_file := Some file |} s =
  match fate with
  | EmitsEnd => snd (on_end (path file) out s2)
  | NeverEnds => s2
  end.
Proof.
  intros v name out s2 H Hmime Hfs.
  unfold serve, convert_handler, try_catch, try_block, bind.
  cbn [req_body req_file]. fold v name out.
  rewrite H, Hmime. unfold fs_createReadStream. by rewrite Hfs.
Qed.

(** Once the dispatch is over, nothing converts any more: what follows in
    the trace are removals and log lines. *)
Lemma serve_conversions b file s :
  let v := targetFormat b in
  conversions (st_trace
    (serve fs env now fate
       {| req_body := Some b; req_file := Some file |} s))
  = conversions (st_trace (snd
      (dispatch env (path file) (uploads_path env (outputFileName now v)) v
         s))).
Proof.
  intros v.
  destruct (dispatch env (path file)
              (uploads_path env (outputFileName now v)) v s)
    as [[[]|e] s1] eqn:Hd; cbn [snd].
  - destruct (contentTypes !! template v) as [mime|] eqn:Hmime.
    + destruct (has_createReadStream fs) eqn:Hfs.
      * rewrite (serve_converted_stream b file mime s s1) by done.
        destruct fate; [|done]. rewrite on_end_run.
        cbn [snd st_trace st_disk]. by autorewrite with trace.
      * rewrite (serve_converted_no_stream b file mime s s1) by done.
        cbn [st_trace]. by autorewrite with trace.
    + erewrite serve_throw; last first.
      { unfold try_block, bind. cbn [req_body req_file]. fold v.
        by rewrite Hd, Hmime. }
      cbn [st_trace]. by autorewrite with trace.
  - rewrite (serve_dispatch_throw b file e s s1) by done.
    cbn [st_trace]. by autorewrite with trace.
Qed.

(** Every call of [convertImage] a request makes has passed the
    [supportedImageFormats] test. *)
Lemma serve_calls_image req disk i o v :
  EvCall Image i o v
    ∈ st_trace (serve fs env now fate req (init_state disk)) →
  includes supportedImageFormats v = true.
Proof.
  intros H. apply elem_of_conversions in H; [|done]. revert H.
  destruct req as [[b|] [file|]].
  - rewrite serve_conversions. intros H.
    apply dispatch_calls_image in H as [-> H]; done.
  - rewrite serve_no_file. by intros ?%elem_of_nil.
  - erewrite serve_throw by done. cbn [st_trace init_state app].
    autorewrite with trace. by intros ?%elem_of_nil.
  - by intros ?%elem_of_nil.
Qed.
End Serve.

Lemma unsupported_reply v :
  error_reply fresh_res
    (new_Error ("Conversion to " +:+ template v +:+ " is not supported")) =
  {| statusCode := 500;
     headers := {[ "Content-Type" := "application/json; charset=utf-8" ]};
     body := Some (BodyJson
       [("error", "Conversion to " +:+ template v +:+ " is not supported");
        ("details",
         "Error: Conversion to " +:+ template v +:+ " is not supported")]) |}.
Proof. done. Qed.

(** ** Stored file names *)

Lemma append_empty s : "" +:+ s = s.
Proof. done. Qed.

Lemma append_String c s r : String c s +:+ r = String c (s +:+ r).
Proof. done. Qed.

(** A dash-free prefix is delimited by the first dash. *)
Lemma split_at_dash s1 s2 r1 r2 :
  no_dash s1 = true → no_dash s2 = true →
  s1 +:+ "-" +:+ r1 = s2 +:+ "-" +:+ r2 → s1 = s2 ∧ r1 = r2.
Proof.
  revert s2. induction s1 as [|c1 s1 IH]; intros [|c2 s2]; cbn;
    rewrite ?append_String, ?append_empty.
  - intros _ _ [= ->]. done.
  - intros _ H [= <- _]. done.
  - intros H _ [= -> _]. done.
  - intros [_ H1]%andb_prop [_ H2]%andb_prop [= -> Heq].
    destruct (IH s2 H1 H2 Heq) as [-> ->]. done.
Qed.

Lemma pretty_N_char_no_dash d : Ascii.eqb (pretty_N_char d) "-"%char = false.
Proof. unfold pretty_N_char. by repeat case_match. Qed.

Lemma pretty_N_go_no_dash x s :
  no_dash s = true → no_dash (pretty_N_go x s) = true.
Proof.
  revert s. induction (N.lt_wf_0 x) as [x _ IH]; intros s Hs.
  destruct (decide (x = 0)%N) as [->|Hx]; [done|].
  rewrite pretty_N_go_step by lia. apply IH.
  - apply N.div_lt; lia.
  - cbn. by rewrite pretty_N_char_no_dash.
Qed.

Lemma pretty_N_go_length x s :
  (String.length s ≤ String.length (pretty_N_go x s))%nat.
Proof.
  revert s. induction (N.lt_wf_0 x) as [x _ IH]; intros s.
  destruct (decide (x = 0)%N) as [->|Hx]; [done|].
  rewrite pretty_N_go_step by lia.
  etrans; [|apply IH, N.div_lt; lia]. cbn. lia.
Qed.

Lemma pretty_N_no_dash (x : N) : no_dash (pretty x) = true.
Proof.
  unfold pretty, pretty_N. case_decide; [done|].
  by apply pretty_N_go_no_dash.
Qed.

Lemma pretty_N_head (x : N) : ∃ c r, pretty x = String c r ∧ c ≠ "-"%char.
Proof.
  pose proof (pretty_N_no_dash x) as Hd.
  destruct (pretty x) as [|c r] eqn:E.
  - exfalso. revert E. unfold pretty, pretty_N. case_decide; [done|].
    rewrite pretty_N_go_step by lia. intros E.
    pose proof (pretty_N_go_length (x `div` 10)
      (String (pretty_N_char (x `mod` 10)) "")) as Hl.
    rewrite E in Hl. cbn in Hl. lia.
  - exists c, r. split; [done|]. cbn in Hd.
    apply andb_prop in Hd as [Hc _]. intros ->. done.
Qed.

(** The decimal rendering of a clock reading: an optional sign, then a
    non-empty run of digits. *)
Lemma pretty_Z_shape (z : Z) :
  ∃ (n : N), (pretty z = pretty n ∧ z = Z.of_N n) ∨
             (pretty z = "-" +:+ pretty n ∧ z = (- Z.of_N n)%Z ∧ n ≠ 0%N).
Proof.
  destruct z as [|p|p].
  - exists 0%N. by left.
  - exists (Npos p). by left.
  - exists (Npos p). by right.
Qed.

(** The stored name determines both the clock reading and the original
    name. *)
Lemma storage_filename_inj t1 n1 t2 n2 :
  storage_filename t1 n1 = storage_filename t2 n2 → t1 = t2 ∧ n1 = n2.
Proof.
  unfold storage_filename.
  destruct (pretty_Z_shape t1) as (a1 & [[-> ->]|(-> & -> & Ha1)]),
           (pretty_Z_shape t2) as (a2 & [[-> ->]|(-> & -> & Ha2)]).
  - intros [Hp ->]%split_at_dash; try apply pretty_N_no_dash.
    by apply (inj pretty) in Hp as ->.
  - destruct (pretty_N_head a1) as (c & r & -> & Hc).
    rewrite !append_String. intros [= -> _]. done.
  - destruct (pretty_N_head a2) as (c & r & -> & Hc).
    rewrite !append_String. intros [= <- _]. done.
  - rewrite !append_String, !append_empty. intros [= Heq].
    apply split_at_dash in Heq as [Hp ->]; try apply pretty_N_no_dash.
    by apply (inj pretty) in Hp as ->.
Qed.

(** * The claims *)

(** ** Cleanup of temporary files *)

(** C1 fails. As written, every successful conversion ends in the catch
    block (line 121 throws), which removes the input file only: the output
    file the converter has written is still on disk when the request is
    over. And with a binding that makes streams, a stream that never emits
    ['end'] (read error, client gone) leaves both files, since no other
    event has a listener. *)
Theorem converted_output_is_left_behind env now file f s s1 d :
  let out := uploads_path env (outputFileName now (JsString f)) in
  let req := {| req_body := Some {| targetFormat := JsString f |};
                req_file := Some file |} in
  f ∈ ["mp3"; "wav"; "ogg"; "m4a"; "pdf"; "docx"; "txt";
       "jpg"; "jpeg"; "png"; "webp"] →
  dispatch env (path file) out (JsString f) s = (Normal tt, s1) →
  st_disk s1 !! out = Some d →
  out ≠ path file →
  (∀ fate,
     st_disk (post_convert env now fate req s)
       = delete (path file) (st_disk s1) ∧
     st_disk (post_convert env now fate req s) !! out = Some d) ∧
  st_disk (serve fs_with_streams env now NeverEnds req s) = st_disk s1.
Proof.
  intros out req Hf Hd Hout Hne.
  destruct (contentTypes_supported f Hf) as [mime Hmime].
  subst req. unfold post_convert. split.
  - intros fate.
    rewrite (serve_converted_no_stream _ _ _ _ _ _ mime _ s1) by done.
    cbn [st_disk]. split; [done|]. by rewrite lookup_delete_ne.
  - by rewrite (serve_converted_stream _ _ _ _ _ _ mime _ s1).
Qed.

Lemma converted_output_is_left_behind_witness :
  (∀ fate,
     st_disk (post_convert env_ok 1700000000005 fate
                (request_for (JsString "wav")) (init_state sample_disk))
       = delete (path sample_upload)
           (<[wav_out := "audio-bytes"]> sample_disk) ∧
     st_disk (post_convert env_ok 1700000000005 fate
                (request_for (JsString "wav")) (init_state sample_disk))
       !! wav_out = Some "audio-bytes") ∧
  st_disk (serve fs_with_streams env_ok 1700000000005 NeverEnds
             (request_for (JsString "wav")) (init_state sample_disk))
    = <[wav_out := "audio-bytes"]> sample_disk.
Proof.
  apply (converted_output_is_left_behind env_ok 1700000000005
           sample_upload "wav" (init_state sample_disk)
           (snd (dispatch env_ok (path sample_upload) wav_out
                   (JsString "wav") (init_state sample_disk)))
           "audio-bytes").
  - listed.
  - vm_compute. reflexivity.
  - vm_compute. reflexivity.
  - vm_compute. discriminate.
Defined.

(** A converter that fails after it has opened its output file leaves that
    file behind as well: the catch block removes the input file only. *)
Example failed_conversion_leaves_partial_output fs fate :
  st_disk (serve fs env_ffmpeg_breaks 1700000000005 fate
             (request_for (JsString "wav")) (init_state sample_disk))
  = {[ wav_out := "" ]}.
Proof. destruct fs as [[]], fate; vm_compute; reflexivity. Qed.

(** What does hold of the cleanup: when the stream is read to its end and
    the input file is still there, both files are gone afterwards. *)
Lemma stream_end_removes_both env now file f s s1 :
  let out := uploads_path env (outputFileName now (JsString f)) in
  let req := {| req_body := Some {| targetFormat := JsString f |};
                req_file := Some file |} in
  f ∈ supportedFormats →
  dispatch env (path file) out (JsString f) s = (Normal tt, s1) →
  is_Some (st_disk s1 !! path file) →
  let disk' := st_disk (serve fs_with_streams env now EmitsEnd req s) in
  disk' !! path file = None ∧ disk' !! out = None.
Proof.
  intros out req Hf Hd Hin.
  destruct (contentTypes_supported f Hf) as [mime Hmime].
  subst req.
  rewrite (serve_converted_stream _ _ _ _ _ _ mime _ s1) by done.
  by apply on_end_removes_both.
Qed.

(** ** Unsupported formats *)

(** C2. A target format outside the supported set reaches no converter and
    no external tool, adds no file to the disk, has the uploaded input file
    removed, and is answered 500 with the JSON error
    ['Conversion to <format> is not supported']. *)
Theorem unsupported_format_rejected fs env now fate file (f : string) disk :
  f ∉ ["mp3"; "wav"; "ogg"; "m4a"; "pdf"; "docx"; "txt";
       "jpg"; "jpeg"; "png"; "webp"] →
  let s := serve fs env now fate
             {| req_body := Some {| targetFormat := JsString f |};
                req_file := Some file |}
             (init_state disk) in
  conversions (st_trace s) = [] ∧
  st_disk s = delete (path file) disk ∧
  st_disk s !! path file = None ∧
  statusCode (st_res s) = 500 ∧
  body (st_res s) = Some (BodyJson
    [("error", "Conversion to " +:+ f +:+ " is not supported");
     ("details", "Error: Conversion to " +:+ f +:+ " is not supported")]).
Proof.
  intros Hf s. subst s.
  rewrite serve_unsupported by by apply includes_not_elem_of.
  cbn [st_trace st_disk st_res init_state app].
  rewrite conversions_cleanup_events, unsupported_reply, lookup_delete_eq.
  done.
Qed.

Lemma unsupported_format_rejected_witness :
  let s := serve fs_promises env_ok 1700000000005 EmitsEnd
             (request_for (JsString "xyz")) (init_state sample_disk) in
  conversions (st_trace s) = [] ∧
  st_disk s = delete (path sample_upload) sample_disk ∧
  st_disk s !! path sample_upload = None ∧
  statusCode (st_res s) = 500 ∧
  body (st_res s) = Some (BodyJson
    [("error", "Conversion to xyz is not supported");
     ("details", "Error: Conversion to xyz is not supported")]).
Proof.
  apply (unsupported_format_rejected fs_promises env_ok 1700000000005
           EmitsEnd sample_upload "xyz" sample_disk).
  not_listed.
Defined.

(** ** The reply to a successful conversion *)

(** What the handler of line 6 was written for: with a binding that makes
    streams, a successful conversion to a supported format is answered by
    the piped output file under the MIME type of [contentTypes] and the
    attachment name [<timestamp>-converted.<f>]. *)
Lemma streamed_reply env now fate file f disk s1 :
  let out := uploads_path env (outputFileName now (JsString f)) in
  let req := {| req_body := Some {| targetFormat := JsString f |};
                req_file := Some file |} in
  f ∈ supportedFormats →
  dispatch env (path file) out (JsString f) (init_state disk)
    = (Normal tt, s1) →
  let r := st_res (serve fs_with_streams env now fate req
                     (init_state disk)) in
  statusCode r = 200 ∧
  body r = Some (BodyPipe out) ∧
  headers r !! "Content-Type" = contentTypes !! f ∧
  headers r !! "Content-Disposition" =
    Some ("attachment; filename=" +:+ pretty now +:+ "-converted." +:+ f).
Proof.
  intros out req Hf Hd r.
  destruct (contentTypes_supported f Hf) as [mime Hmime].
  pose proof (dispatch_res env (path file) out (JsString f) (init_state disk))
    as Hr. rewrite Hd in Hr. cbn [snd init_state st_res] in Hr.
  assert (r = piped (with_headers fresh_res mime
                       (outputFileName now (JsString f))) out) as ->.
  { subst r req.
    rewrite (serve_converted_stream _ _ _ _ _ _ mime _ s1) by done.
    destruct fate; [rewrite (proj2 (on_end_never_throws _ _ _))|];
      cbn [st_res targetFormat]; by rewrite Hr. }
  rewrite Hmime. unfold piped, with_headers, outputFileName.
  cbn [statusCode body headers fresh_res template].
  split_and!; [done|done|..].
  - rewrite lookup_insert_ne by done. by rewrite lookup_insert_eq.
  - by rewrite lookup_insert_eq.
Qed.

Lemma append_suffix_ne s t : t ≠ "" → s +:+ t ≠ s.
Proof.
  intros Ht. induction s as [|c s IH]; rewrite ?append_String.
  - done.
  - intros [= H]. by apply IH.
Qed.

(** C3 fails on the program as written: whatever the supported format, once
    the conversion has succeeded and the two headers are set, line 121 calls
    [createReadStream] on the ['fs/promises'] namespace and the [TypeError]
    lands in the catch block. The reply that is sent is the 500 JSON error,
    not the converted file, and its [Content-Type] is the MIME type of
    [contentTypes] with [; charset=utf-8] appended by [res.json], which is
    not the MIME type the registry maps the format to. The
    [Content-Disposition] of line 118 stays on that reply. *)
Theorem converted_file_is_not_sent env now fate file f s s1 :
  let out := uploads_path env (outputFileName now (JsString f)) in
  let req := {| req_body := Some {| targetFormat := JsString f |};
                req_file := Some file |} in
  f ∈ ["mp3"; "wav"; "ogg"; "m4a"; "pdf"; "docx"; "txt";
       "jpg"; "jpeg"; "png"; "webp"] →
  dispatch env (path file) out (JsString f) s = (Normal tt, s1) →
  let r := st_res (post_convert env now fate req s) in
  statusCode r = 500 ∧
  body r = Some (BodyJson
    [("error", "fs.createReadStream is not a function");
     ("details", "TypeError: fs.createReadStream is not a function")]) ∧
  (∃ mime, contentTypes !! f = Some mime ∧
     headers r !! "Content-Type" = Some (mime +:+ "; charset=utf-8")) ∧
  headers r !! "Content-Type" ≠ contentTypes !! f ∧
  headers r !! "Content-Disposition" =
    Some ("attachment; filename=" +:+ pretty now +:+ "-converted." +:+ f).
Proof.
  intros out req Hf Hd r.
  destruct (contentTypes_supported f Hf) as [mime Hmime].
  assert (headers r !! "Content-Type" = Some (mime +:+ "; charset=utf-8"))
    as Htype.
  { subst r req. unfold post_convert.
    rewrite (serve_converted_no_stream _ _ _ _ _ _ mime _ s1) by done.
    cbn [st_res error_reply with_headers headers].
    rewrite lookup_insert_eq, lookup_insert_ne, lookup_insert_eq by done.
    done. }
  split_and!.
  - subst r req. unfold post_convert.
    by rewrite (serve_converted_no_stream _ _ _ _ _ _ mime _ s1).
  - subst r req. unfold post_convert.
    by rewrite (serve_converted_no_stream _ _ _ _ _ _ mime _ s1).
  - by exists mime.
  - rewrite Htype, Hmime. intros [= H]. by apply append_suffix_ne in H.
  - subst r req. unfold post_convert.
    rewrite (serve_converted_no_stream _ _ _ _ _ _ mime _ s1) by done.
    cbn [st_res error_reply with_headers headers].
    rewrite lookup_insert_ne by done. by rewrite lookup_insert_eq.
Qed.

Lemma converted_file_is_not_sent_witness :
  let r := st_res (post_convert env_ok 1700000000005 EmitsEnd
                     (request_for (JsString "wav"))
                     (init_state sample_disk)) in
  statusCode r = 500 ∧
  body r = Some (BodyJson
    [("error", "fs.createReadStream is not a function");
     ("details", "TypeError: fs.createReadStream is not a function")]) ∧
  (∃ mime, contentTypes !! "wav" = Some mime ∧
     headers r !! "Content-Type" = Some (mime +:+ "; charset=utf-8")) ∧
  headers r !! "Content-Type" ≠ contentTypes !! "wav" ∧
  headers r !! "Content-Disposition" =
    Some ("attachment; filename=" +:+ pretty 1700000000005%Z +:+ "-converted."
          +:+ "wav").
Proof.
  apply (converted_file_is_not_sent env_ok 1700000000005 EmitsEnd
           sample_upload "wav" (init_state sample_disk)
           (snd (dispatch env_ok (path sample_upload) wav_out
                   (JsString "wav") (init_state sample_disk)))).
  - listed.
  - vm_compute. reflexivity.
Defined.

(** At the sample request the reply's [Content-Type] reads
    [audio/wav; charset=utf-8], where the registry has [audio/wav]. *)
Example wav_reply_content_type :
  headers (st_res (post_convert env_ok 1700000000005 EmitsEnd
                     (request_for (JsString "wav")) (init_state sample_disk)))
    !! "Content-Type" = Some "audio/wav; charset=utf-8".
Proof. vm_compute. reflexivity. Qed.

(** ** Stored names across requests *)

(** C4 fails: two distinct requests that upload [sample.mp3] and read the
    same millisecond from [Date.now()] on line 26 get one and the same
    stored name, so the timestamp prefix does not keep the names of distinct
    requests apart. *)
Lemma stored_name_collision :
  arrival_a ≠ arrival_b ∧
  stored_name arrival_a = stored_name arrival_b ∧
  ¬ (∀ a1 a2 : Arrival, a1 ≠ a2 → stored_name a1 ≠ stored_name a2).
Proof.
  split; [done|]. split; [done|].
  intros H. by apply (H arrival_a arrival_b).
Qed.

(** The second of two such uploads overwrites the first. *)
Lemma colliding_upload_overwrites env d1 d2 disk :
  let p := uploads_path env (stored_name arrival_a) in
  let '(f1, disk1) :=
    multer_store env (arrival_clock arrival_a)
      (arrival_originalname arrival_a) d1 disk in
  let '(f2, disk2) :=
    multer_store env (arrival_clock arrival_b)
      (arrival_originalname arrival_b) d2 disk1 in
  path f1 = p ∧ path f2 = p ∧ disk2 = <[p := d2]> disk.
Proof.
  cbn -[pretty]. split; [done|]. split; [done|].
  by rewrite insert_insert_eq.
Qed.

(** Short of that the prefix does its work: the stored name is the same
    for two requests only when both read the same millisecond and carry the
    same original file name. *)
Theorem stored_name_eq_iff (a1 a2 : Arrival) :
  stored_name a1 = stored_name a2 ↔
  arrival_clock a1 = arrival_clock a2 ∧
  arrival_originalname a1 = arrival_originalname a2.
Proof.
  unfold stored_name. split.
  - apply storage_filename_inj.
  - by intros [-> ->].
Qed.

(** ** Fixed converter settings *)

(** C5. Whatever the audio target (mp3, wav, ogg, m4a), the request runs
    ffmpeg exactly once, through [convertAudio], with the codec [libmp3lame]
    and the bitrate [192k]; only the container and the paths vary. *)
Theorem audio_fixed_codec_and_bitrate fs env now fate file f disk :
  f ∈ ["mp3"; "wav"; "ogg"; "m4a"] →
  let out := uploads_path env (outputFileName now (JsString f)) in
  conversions (st_trace
    (serve fs env now fate
       {| req_body := Some {| targetFormat := JsString f |};
          req_file := Some file |}
       (init_state disk))) =
  [EvCall Audio (path file) out (JsString f);
   EvFfmpeg {| ff_input := path file;
               ff_toFormat := JsString f;
               ff_audioCodec := "libmp3lame";
               ff_audioBitrate := "192k";
               ff_save := out |}].
Proof.
  intros Hf out. rewrite serve_conversions. cbn [targetFormat]. fold out.
  by rewrite dispatch_audio, convertAudio_trace.
Qed.

Lemma audio_fixed_codec_and_bitrate_witness :
  conversions (st_trace
    (serve fs_promises env_ok 1700000000005 EmitsEnd
       (request_for (JsString "ogg")) (init_state sample_disk))) =
  [EvCall Audio "/app/uploads/1700000000000-sample.mp3"
     "/app/uploads/1700000000005-converted.ogg" (JsString "ogg");
   EvFfmpeg {| ff_input := "/app/uploads/1700000000000-sample.mp3";
               ff_toFormat := JsString "ogg";
               ff_audioCodec := "libmp3lame";
               ff_audioBitrate := "192k";
               ff_save := "/app/uploads/1700000000005-converted.ogg" |}].
Proof.
  apply (audio_fixed_codec_and_bitrate fs_promises env_ok 1700000000005
           EmitsEnd sample_upload "ogg" sample_disk).
  listed.
Defined.

(** C6. An image target (jpg, jpeg, png, webp) runs sharp exactly once,
    through [convertImage], with quality 90; jpg and jpeg both take the jpeg
    encoder and both map to the MIME type [image/jpeg]. *)
Theorem image_fixed_quality fs env now fate file f disk :
  f ∈ ["jpg"; "jpeg"; "png"; "webp"] →
  let out := uploads_path env (outputFileName now (JsString f)) in
  ∃ enc,
    conversions (st_trace
      (serve fs env now fate
         {| req_body := Some {| targetFormat := JsString f |};
            req_file := Some file |}
         (init_state disk))) =
    [EvCall Image (path file) out (JsString f);
     EvSharp {| sh_input := path file; sh_encoder := enc; sh_quality := 90;
                sh_toFile := out |}] ∧
    ((f = "jpg" ∨ f = "jpeg") ∧ enc = EncJpeg ∧
       contentTypes !! f = Some "image/jpeg" ∨
     f = "png" ∧ enc = EncPng ∨
     f = "webp" ∧ enc = EncWebp).
Proof.
  intros Hf out.
  destruct (convertImage_trace env (path file) out f Hf) as (enc & Ht & Henc).
  exists enc. split.
  - rewrite serve_conversions. cbn [targetFormat]. fold out.
    by rewrite dispatch_image, Ht.
  - destruct Henc as [[[-> | ->] ->]|[[-> ->]|[-> ->]]]; auto.
Qed.

Lemma image_fixed_quality_witness :
  ∃ enc,
    conversions (st_trace
      (serve fs_promises env_ok 1700000000005 EmitsEnd
         (request_for (JsString "jpeg")) (init_state sample_disk))) =
    [EvCall Image "/app/uploads/1700000000000-sample.mp3"
       "/app/uploads/1700000000005-converted.jpeg" (JsString "jpeg");
     EvSharp {| sh_input := "/app/uploads/1700000000000-sample.mp3";
                sh_encoder := enc; sh_quality := 90;
                sh_toFile := "/app/uploads/1700000000005-converted.jpeg" |}] ∧
    (("jpeg" = "jpg" ∨ "jpeg" = "jpeg") ∧ enc = EncJpeg ∧
       contentTypes !! "jpeg" = Some "image/jpeg" ∨
     "jpeg" = "png" ∧ enc = EncPng ∨
     "jpeg" = "webp" ∧ enc = EncWebp).
Proof.
  apply (image_fixed_quality fs_promises env_ok 1700000000005 EmitsEnd
           sample_upload "jpeg" sample_disk).
  listed.
Defined.

(** ** Tolerant cleanup *)

(** The ['end'] listener is less tolerant than the catch block: both
    removals sit in one [try], so when removing the input file fails (it is
    already gone), the removal of the output file is not even attempted and
    the output file stays on disk. The failure is logged and nothing is
    raised. *)
Theorem on_end_skips_output_after_failure i o s d :
  st_disk s !! i = None →
  st_disk s !! o = Some d →
  on_end i o s =
  (Normal tt,
   {| st_disk := st_disk s; st_res := st_res s;
      st_trace := st_trace s ++
        [EvUnlink i;
         EvConsoleError "Error cleaning up files:" (ENOENT "unlink" i)] |}) ∧
  st_disk (snd (on_end i o s)) !! o = Some d.
Proof.
  intros Hi Ho. rewrite on_end_run. unfold on_end_disk, on_end_events.
  by rewrite Hi.
Qed.

Lemma on_end_skips_output_after_failure_witness :
  on_end "/app/uploads/1700000000000-sample.mp3"
    "/app/uploads/1700000000005-converted.wav" (init_state output_only_disk) =
  (Normal tt,
   {| st_disk := output_only_disk; st_res := fresh_res;
      st_trace :=
        [EvUnlink "/app/uploads/1700000000000-sample.mp3";
         EvConsoleError "Error cleaning up files:"
           (ENOENT "unlink" "/app/uploads/1700000000000-sample.mp3")] |}) ∧
  st_disk (snd (on_end "/app/uploads/1700000000000-sample.mp3"
                  "/app/uploads/1700000000005-converted.wav"
                  (init_state output_only_disk)))
    !! "/app/uploads/1700000000005-converted.wav" = Some "audio-bytes".
Proof.
  apply (on_end_skips_output_after_failure
           "/app/uploads/1700000000000-sample.mp3"
           "/app/uploads/1700000000005-converted.wav"
           (init_state output_only_disk) "audio-bytes").
  - vm_compute. reflexivity.
  - vm_compute. reflexivity.
Defined.

Example two_requests_one_input_leak :
  two_requests_one_input =
  {[ "/app/uploads/1700000000006-converted.wav" := "audio-bytes" ]}.
Proof. vm_compute. reflexivity. Qed.

(** ** Requests without a file or without a target format *)

(** C8. A multipart request without a file field is answered 400 with the
    JSON body [{error: "No file uploaded"}]; the upload middleware has stored
    nothing for it, the handler touches no file and attempts no removal. *)
Theorem no_file_uploaded env clock now fate v disk :
  let form := {| field_targetFormat := v; field_file := None |} in
  snd (upload_single env clock form disk) = disk ∧
  route env clock now fate form disk =
  {| st_disk := disk;
     st_res := {| statusCode := 400;
                  headers := {[ "Content-Type" :=
                                  "application/json; charset=utf-8" ]};
                  body := Some (BodyJson [("error", "No file uploaded")]) |};
     st_trace := [] |}.
Proof.
  intros form. split; [done|].
  unfold route, upload_single, post_convert. cbn [field_file form].
  by rewrite serve_no_file.
Qed.

(** C9. A request with a file and no [targetFormat] field is not answered
    400: the dispatch falls through to its last branch, the reply is 500 with
    the message ['Conversion to undefined is not supported'], and the uploaded
    input file is removed. *)
Theorem missing_target_format fs env now fate file disk :
  let s := serve fs env now fate
             {| req_body := Some {| targetFormat := JsUndefined |};
                req_file := Some file |}
             (init_state disk) in
  statusCode (st_res s) = 500 ∧
  body (st_res s) = Some (BodyJson
    [("error", "Conversion to undefined is not supported");
     ("details", "Error: Conversion to undefined is not supported")]) ∧
  conversions (st_trace s) = [] ∧
  st_disk s = delete (path file) disk ∧
  st_disk s !! path file = None.
Proof.
  intros s. subst s. rewrite serve_unsupported by done.
  cbn [st_trace st_disk st_res init_state app].
  by rewrite conversions_cleanup_events, unsupported_reply, lookup_delete_eq.
Qed.

(** ** The last branch of [convertImage] *)

(** C10. Called with a format other than jpg, jpeg, png and webp,
    [convertImage] returns normally without running sharp and without
    touching the disk; the endpoint never calls it that way, since every
    call of [convertImage] a request makes carries one of the four. *)
Theorem convertImage_silent_branch env i o v s fs now fate req disk i' o' v' :
  (v ∉ JsString <$> ["jpg"; "jpeg"; "png"; "webp"] →
   convertImage env i o v s =
   (Normal tt,
    {| st_disk := st_disk s; st_res := st_res s;
       st_trace := st_trace s ++ [EvCall Image i o v] |})) ∧
  (EvCall Image i' o' v'
     ∈ st_trace (serve fs env now fate req (init_state disk)) →
   v' ∈ JsString <$> ["jpg"; "jpeg"; "png"; "webp"]).
Proof.
  split.
  - apply convertImage_unlisted.
  - intros (f & -> & Hf)%serve_calls_image%includes_true.
    by apply list_elem_of_fmap_2.
Qed.

Lemma convertImage_silent_branch_witness :
  convertImage env_ok "/app/uploads/in.png" "/app/uploads/out.gif"
    (JsString "gif") (init_state sample_disk) =
  (Normal tt,
   {| st_disk := sample_disk; st_res := fresh_res;
      st_trace := [EvCall Image "/app/uploads/in.png" "/app/uploads/out.gif"
                     (JsString "gif")] |}) ∧
  JsString "png" ∈ JsString <$> ["jpg"; "jpeg"; "png"; "webp"].
Proof.
  pose proof (convertImage_silent_branch env_ok "/app/uploads/in.png"
    "/app/uploads/out.gif" (JsString "gif") (init_state sample_disk)
    fs_promises 1700000000005 EmitsEnd (request_for (JsString "png"))
    sample_disk "/app/uploads/1700000000000-sample.mp3"
    "/app/uploads/1700000000005-converted.png" (JsString "png")) as [Ha Hb].
  split.
  - apply Ha. cbn. not_listed.
  - apply Hb. vm_compute. listed.
Defined.

(** * Further properties of the code *)

(** ** [convertDocument] (lines 49-54) *)

(** X1. A conversion that succeeds leaves at the output path exactly the buffer
    libreoffice-convert returned, asked for the extension ['.' + format] on
    the bytes of the input file; no other path changes. *)
Theorem convertDocument_writes_buffer env i o v s d d' :
  st_disk s !! i = Some d →
  libre_convert env d ("." +:+ template v) = inl d' →
  convertDocument env i o v s =
  (Normal tt,
   {| st_disk := <[o := d']> (st_disk s); st_res := st_res s;
      st_trace := st_trace s ++
        [EvCall Document i o v; EvLibre ("." +:+ template v)] |}) ∧
  st_disk (snd (convertDocument env i o v s)) !! o = Some d'.
Proof.
  intros Hi Hl.
  assert (convertDocument env i o v s =
    (Normal tt,
     {| st_disk := <[o := d']> (st_disk s); st_res := st_res s;
        st_trace := st_trace s ++
          [EvCall Document i o v; EvLibre ("." +:+ template v)] |})) as ->.
  { unfold convertDocument, convertLibreOffice, bind, emit, fs_readFile,
      fs_writeFile, set_disk, ret. cbn. rewrite Hi. cbn. rewrite Hl.
    by rewrite <-(assoc_L (++)). }
  split; [done|]. apply lookup_insert_eq.
Qed.

Lemma convertDocument_writes_buffer_witness :
  convertDocument env_ok (path docx_upload) pdf_out (JsString "pdf")
    (init_state docx_disk) =
  (Normal tt,
   {| st_disk := <[pdf_out := "document-bytes"]> docx_disk;
      st_res := fresh_res;
      st_trace := [EvCall Document (path docx_upload) pdf_out (JsString "pdf");
                   EvLibre ".pdf"] |}) ∧
  st_disk (snd (convertDocument env_ok (path docx_upload) pdf_out
                  (JsString "pdf") (init_state docx_disk)))
    !! pdf_out = Some "document-bytes".
Proof.
  apply (convertDocument_writes_buffer env_ok (path docx_upload) pdf_out
           (JsString "pdf") (init_state docx_disk) "docx-bytes"
           "document-bytes").
  - vm_compute. reflexivity.
  - vm_compute. reflexivity.
Defined.

(** X2. A conversion that fails, because the input cannot be read or because
    libreoffice-convert rejects, has written nothing: the disk is as it
    was. *)
Theorem convertDocument_failure_writes_nothing env i o v s e s' :
  convertDocument env i o v s = (Throw e, s') →
  st_disk s' = st_disk s.
Proof.
  unfold convertDocument, convertLibreOffice, bind, emit, fs_readFile,
    fs_writeFile, set_disk, ret, throw. cbn.
  destruct (st_disk s !! i) as [d|]; cbn.
  - destruct (libre_convert env d _); [done|]. by intros [= <- <-].
  - by intros [= <- <-].
Qed.

Lemma convertDocument_failure_writes_nothing_witness :
  st_disk (snd (convertDocument env_libre_breaks (path docx_upload) pdf_out
                  (JsString "pdf") (init_state docx_disk))) =
    st_disk (init_state docx_disk).
Proof.
  apply (convertDocument_failure_writes_nothing env_libre_breaks
           (path docx_upload) pdf_out (JsString "pdf")
           (init_state docx_disk) (new_Error "Document conversion failed")).
  vm_compute. reflexivity.
Defined.

(** ** Document targets through the endpoint (lines 108-109) *)

(** X3. For a document target (pdf, docx, txt) the request calls
    [convertDocument] and nothing else; libreoffice-convert runs once, for
    the extension ['.' + format], when the uploaded file can be read, and
    not at all when it cannot. *)
Theorem document_runs_libreoffice_once fs env now fate file f disk :
  f ∈ ["pdf"; "docx"; "txt"] →
  let out := uploads_path env (outputFileName now (JsString f)) in
  conversions (st_trace
    (serve fs env now fate
       {| req_body := Some {| targetFormat := JsString f |};
          req_file := Some file |}
       (init_state disk))) =
  EvCall Document (path file) out (JsString f) ::
    match disk !! path file with
    | Some _ => [EvLibre ("." +:+ f)]
    | None => []
    end.
Proof.
  intros Hf out. rewrite serve_conversions. cbn [targetFormat]. fold out.
  rewrite dispatch_document, convertDocument_trace by done.
  cbn [init_state st_trace st_disk app template].
  by destruct (disk !! path file).
Qed.

Lemma document_runs_libreoffice_once_witness :
  conversions (st_trace
    (serve fs_promises env_ok 1700000000005 EmitsEnd
       {| req_body := Some {| targetFormat := JsString "pdf" |};
          req_file := Some docx_upload |}
       (init_state docx_disk))) =
  EvCall Document (path docx_upload) pdf_out (JsString "pdf") ::
    match docx_disk !! path docx_upload with
    | Some _ => [EvLibre ("." +:+ "pdf")]
    | None => []
    end.
Proof.
  apply (document_runs_libreoffice_once fs_promises env_ok 1700000000005
           EmitsEnd docx_upload "pdf" docx_disk).
  listed.
Defined.

(** ** The error reply (lines 133-147) *)

Lemma message_or_nonempty e dflt :
  err_message e ≠ "" → message_or e dflt = err_message e.
Proof.
  intros H. unfold message_or. by rewrite (proj2 (String.eqb_neq _ _) H).
Qed.

Lemma error_toString_full e :
  err_name e ≠ "" → err_message e ≠ "" →
  error_toString e = err_name e +:+ ": " +:+ err_message e.
Proof.
  intros Hn Hm. unfold error_toString.
  by rewrite (proj2 (String.eqb_neq _ _) Hn), (proj2 (String.eqb_neq _ _) Hm).
Qed.

Lemma error_toString_no_message e :
  err_message e = "" → error_toString e = err_name e.
Proof.
  intros Hm. unfold error_toString. rewrite Hm.
  destruct (String.eqb_spec (err_name e) "") as [->|]; done.
Qed.

(** X4. Whatever the dispatch throws (a tool's error, a read error, the
    unsupported-format error), the client gets 500 with the error's own
    message in [error] and ["<name>: <message>"] in [details], the uploaded
    file is gone, and this is so whether or not its removal succeeded. *)
Theorem dispatch_error_is_reported fs env now fate b file e s s1 :
  let v := targetFormat b in
  let out := uploads_path env (outputFileName now v) in
  dispatch env (path file) out v s = (Throw e, s1) →
  err_name e ≠ "" →
  err_message e ≠ "" →
  let s' := serve fs env now fate
              {| req_body := Some b; req_file := Some file |} s in
  statusCode (st_res s') = 500 ∧
  body (st_res s') = Some (BodyJson
    [("error", err_message e);
     ("details", err_name e +:+ ": " +:+ err_message e)]) ∧
  st_disk s' = delete (path file) (st_disk s1) ∧
  st_disk s' !! path file = None.
Proof.
  intros v out Hd Hn Hm s'. subst s'.
  rewrite (serve_dispatch_throw fs env now fate b file e s s1) by done.
  cbn [st_res st_disk error_reply statusCode body].
  rewrite message_or_nonempty, error_toString_full, lookup_delete_eq by done.
  done.
Qed.

Lemma dispatch_error_is_reported_witness :
  let s' := serve fs_promises env_libre_breaks 1700000000005 EmitsEnd
              {| req_body := Some {| targetFormat := JsString "pdf" |};
                 req_file := Some docx_upload |}
              (init_state docx_disk) in
  statusCode (st_res s') = 500 ∧
  body (st_res s') = Some (BodyJson
    [("error", "Document conversion failed");
     ("details", "Error" +:+ ": " +:+ "Document conversion failed")]) ∧
  st_disk s' = delete (path docx_upload) docx_disk ∧
  st_disk s' !! path docx_upload = None.
Proof.
  apply (dispatch_error_is_reported fs_promises env_libre_breaks
           1700000000005 EmitsEnd {| targetFormat := JsString "pdf" |}
           docx_upload (new_Error "Document conversion failed")
           (init_state docx_disk)
           (snd (dispatch env_libre_breaks (path docx_upload) pdf_out
                   (JsString "pdf") (init_state docx_disk)))).
  - vm_compute. reflexivity.
  - discriminate.
  - discriminate.
Defined.

(** X5. An error without a message is reported as ['Conversion failed'], with
    the error's name alone in [details]. *)
Theorem silent_error_is_conversion_failed fs env now fate b file e s s1 :
  let v := targetFormat b in
  let out := uploads_path env (outputFileName now v) in
  dispatch env (path file) out v s = (Throw e, s1) →
  err_message e = "" →
  let s' := serve fs env now fate
              {| req_body := Some b; req_file := Some file |} s in
  statusCode (st_res s') = 500 ∧
  body (st_res s') = Some (BodyJson
    [("error", "Conversion failed"); ("details", err_name e)]).
Proof.
  intros v out Hd Hm s'. subst s'.
  rewrite (serve_dispatch_throw fs env now fate b file e s s1) by done.
  cbn [st_res error_reply statusCode body].
  rewrite error_toString_no_message by done.
  unfold message_or. by rewrite Hm.
Qed.

Lemma silent_error_is_conversion_failed_witness :
  let s' := serve fs_promises env_sharp_silent 1700000000005 EmitsEnd
              (request_for (JsString "png")) (init_state sample_disk) in
  statusCode (st_res s') = 500 ∧
  body (st_res s') = Some (BodyJson
    [("error", "Conversion failed"); ("details", "Error")]).
Proof.
  apply (silent_error_is_conversion_failed fs_promises env_sharp_silent
           1700000000005 EmitsEnd {| targetFormat := JsString "png" |}
           sample_upload {| err_name := "Error"; err_message := "" |}
           (init_state sample_disk)
           (snd (dispatch env_sharp_silent (path sample_upload)
                   "/app/uploads/1700000000005-converted.png"
                   (JsString "png") (init_state sample_disk)))).
  - vm_compute. reflexivity.
  - reflexivity.
Defined.

(** ** The two tables of the handler (lines 86-103) *)

Lemma dispatch_normal_supported env i o v s s1 :
  dispatch env i o v s = (Normal tt, s1) →
  ∃ f, v = JsString f ∧ f ∈ supportedFormats.
Proof.
  intros Hd. apply includes_true.
  destruct (includes supportedFormats v) eqn:Hv; [done|].
  by rewrite dispatch_unsupported in Hd.
Qed.

(** X6. The arrays the dispatch consults and the keys of [contentTypes] agree:
    a format has a MIME type exactly when one of the three arrays lists it,
    and no format is listed twice, so the three categories are disjoint. *)
Theorem contentTypes_keys_are_supported (f : string) :
  (is_Some (contentTypes !! f) ↔
     f ∈ supportedAudioFormats ++ supportedDocFormats
         ++ supportedImageFormats) ∧
  NoDup (supportedAudioFormats ++ supportedDocFormats
         ++ supportedImageFormats).
Proof.
  split.
  - fold supportedFormats. split.
    + intros Hsome. destruct (decide (f ∈ supportedFormats)) as [|Hn]; [done|].
      exfalso. revert Hsome. unfold contentTypes.
      rewrite (not_elem_of_list_to_map_1 _ f); [by intros [? ?]|].
      exact Hn.
    + intros Hf. destruct (contentTypes_supported f Hf) as [mime ->]. eauto.
  - apply NoDup_ListNoDup. repeat constructor; cbn; intuition discriminate.
Qed.

(** X7. A dispatch that returns normally was given one of the listed formats,
    so the [Content-Type] value of line 117 is never [undefined] and
    [res.setHeader] does not throw on it. *)
Theorem content_type_defined_after_dispatch env i o v s s1 :
  dispatch env i o v s = (Normal tt, s1) →
  ∃ f mime, v = JsString f ∧ contentTypes !! template v = Some mime ∧
    fst (res_setHeader "Content-Type" (contentTypes !! template v) s1)
      = Normal tt.
Proof.
  intros (f & -> & Hf)%dispatch_normal_supported.
  destruct (contentTypes_supported f Hf) as [mime Hmime].
  exists f, mime. cbn [template]. by rewrite Hmime.
Qed.

Lemma content_type_defined_after_dispatch_witness :
  ∃ f mime, JsString "docx" = JsString f ∧
    contentTypes !! template (JsString "docx") = Some mime ∧
    fst (res_setHeader "Content-Type"
           (contentTypes !! template (JsString "docx"))
           (snd (dispatch env_ok (path docx_upload)
                   "/app/uploads/1700000000005-converted.docx"
                   (JsString "docx") (init_state docx_disk))))
      = Normal tt.
Proof.
  apply (content_type_defined_after_dispatch env_ok (path docx_upload)
           "/app/uploads/1700000000005-converted.docx" (JsString "docx")
           (init_state docx_disk)).
  vm_compute. reflexivity.
Defined.

(** ** What a request removes and what it leaves alone *)

Lemma unlinks_app t1 t2 : unlinks (t1 ++ t2) = unlinks t1 ++ unlinks t2.
Proof. apply omap_app. Qed.

Lemma unlinks_cleanup_events disk p : unlinks (cleanup_events disk p) = [p].
Proof. unfold cleanup_events. by destruct (disk !! p). Qed.

(** Converting removes nothing. *)
Lemma dispatch_unlinks env i o v s :
  unlinks (st_trace (snd (dispatch env i o v s))) = unlinks (st_trace s).
Proof.
  unfold dispatch.
  destruct (includes supportedAudioFormats v).
  { rewrite convertAudio_trace, unlinks_app. apply app_nil_r. }
  destruct (includes supportedDocFormats v).
  { rewrite convertDocument_trace, unlinks_app.
    destruct (st_disk s !! i); apply app_nil_r. }
  destruct (includes supportedImageFormats v) eqn:Hi; [|done].
  destruct (includes_true _ _ Hi) as (f & -> & Hf).
  destruct (convertImage_trace env i o f Hf) as (enc & -> & _).
  rewrite unlinks_app. apply app_nil_r.
Qed.

Lemma settle_disk_other out o s p :
  p ≠ out → st_disk (snd (settle out o s)) !! p = st_disk s !! p.
Proof.
  intros Hp. unfold settle, bind, set_disk, ret, throw.
  destruct (written o), (failure o); cbn; by rewrite ?lookup_insert_ne.
Qed.

(** Converting writes at the output path only. *)
Lemma dispatch_disk_other env i o v s p :
  p ≠ o → st_disk (snd (dispatch env i o v s)) !! p = st_disk s !! p.
Proof.
  intros Hp. unfold dispatch.
  destruct (includes supportedAudioFormats v).
  { unfold convertAudio, bind, emit, get_disk. cbn -[settle].
    by rewrite settle_disk_other. }
  destruct (includes supportedDocFormats v).
  { unfold convertDocument, convertLibreOffice, bind, emit, fs_readFile,
      fs_writeFile, set_disk, ret, throw. cbn.
    destruct (st_disk s !! i) as [d|]; cbn; [|done].
    destruct (libre_convert env d _); cbn; by rewrite ?lookup_insert_ne. }
  destruct (includes supportedImageFormats v); [|done].
  unfold convertImage, sharp_toFile, bind, emit, get_disk.
  cbn -[settle].
  repeat case_match; cbn -[settle]; by rewrite ?settle_disk_other.
Qed.

(** With the binding of line 6 the [try] block of a request that carries a
    file never completes: it throws, at the latest on line 121, having
    removed nothing. *)
Lemma try_block_as_written env now b file s :
  ∃ e s1,
    try_block fs_promises env now {| req_body := b; req_file := Some file |} s
      = (Throw e, s1) ∧
    unlinks (st_trace s1) = unlinks (st_trace s).
Proof.
  destruct b as [b|]; [|by eexists _, _].
  unfold try_block, bind. cbn [req_body req_file].
  destruct (dispatch env (path file) _ (targetFormat b) s)
    as [[[]|e] s1] eqn:Hd.
  - destruct (dispatch_normal_supported _ _ _ _ _ _ Hd) as (f & Hv & Hf).
    destruct (contentTypes_supported f Hf) as [mime Hmime].
    rewrite Hv. cbn [template]. rewrite Hmime. eexists _, _. split; [done|]. cbn [st_trace].
    pose proof (dispatch_unlinks env (path file)
      (uploads_path env (outputFileName now (targetFormat b)))
      (targetFormat b) s) as Hu.
    by rewrite Hd in Hu.
  - eexists _, _. split; [done|].
    pose proof (dispatch_unlinks env (path file)
      (uploads_path env (outputFileName now (targetFormat b)))
      (targetFormat b) s) as Hu.
    by rewrite Hd in Hu.
Qed.

(** X8. As written, no request is ever answered with the converted file: the
    reply is always a JSON body, with status 400 exactly when a multipart
    request has no file field and status 500 in every other case. *)
Theorem as_written_every_reply_is_json env now fate req s :
  let r := st_res (post_convert env now fate req s) in
  (∃ fields, body r = Some (BodyJson fields)) ∧
  (statusCode r = 400 ∧ is_Some (req_body req) ∧ req_file req = None ∨
   statusCode r = 500 ∧ (req_body req = None ∨ is_Some (req_file req))).
Proof.
  intros r. subst r. unfold post_convert.
  destruct req as [b [file|]].
  - destruct (try_block_as_written env now b file s) as (e & s1 & Ht & _).
    rewrite (serve_throw _ _ _ _ _ _ _ _ _ Ht). cbn.
    split; [by eexists|]. right. eauto.
  - destruct b as [b|].
    + rewrite serve_no_file. cbn. split; [by eexists|]. left. eauto.
    + cbn. split; [by eexists|]. right. eauto.
Qed.

(** X9. As written, a request that carries a file attempts exactly one removal,
    that of the uploaded file, and the uploaded file is gone when the
    request is over, whatever the target format and whatever the tools
    did. *)
Theorem as_written_input_is_removed_once env now fate b file disk :
  let s' := post_convert env now fate
              {| req_body := b; req_file := Some file |}
              (init_state disk) in
  unlinks (st_trace s') = [path file] ∧
  st_disk s' !! path file = None.
Proof.
  intros s'. subst s'. unfold post_convert.
  destruct (try_block_as_written env now b file (init_state disk))
    as (e & s1 & Ht & Hu).
  rewrite (serve_throw _ _ _ _ _ _ _ _ _ Ht). cbn [st_trace st_disk].
  rewrite unlinks_app, Hu, unlinks_cleanup_events, lookup_delete_eq. done.
Qed.

Lemma on_end_disk_other disk i o p :
  p ≠ i → p ≠ o → on_end_disk disk i o !! p = disk !! p.
Proof.
  intros Hi Ho. unfold on_end_disk. destruct (disk !! i); [|done].
  by rewrite !lookup_delete_ne.
Qed.

(** X10. Whatever the binding, the outcome of the tools and the fate of the
    stream, a request changes nothing on disk but its own input and output
    paths (the tools being given no other path to write to). *)
Theorem other_files_untouched fs env now fate req s p :
  (∀ file, req_file req = Some file → p ≠ path file) →
  (∀ b, req_body req = Some b →
        p ≠ uploads_path env (outputFileName now (targetFormat b))) →
  st_disk (serve fs env now fate req s) !! p = st_disk s !! p.
Proof.
  intros Hin Hout. destruct req as [[b|] [file|]]; cbn in Hin, Hout.
  - specialize (Hin file eq_refl). specialize (Hout b eq_refl).
    pose proof (dispatch_disk_other env (path file) _ (targetFormat b) s p
                  Hout) as Hframe.
    destruct (dispatch env (path file)
                (uploads_path env (outputFileName now (targetFormat b)))
                (targetFormat b) s) as [[[]|e] s1] eqn:Hd; cbn [snd] in Hframe.
    + destruct (dispatch_normal_supported _ _ _ _ _ _ Hd) as (f & Hv & Hf).
      destruct (contentTypes_supported f Hf) as [mime Hmime].
      assert (contentTypes !! template (targetFormat b) = Some mime)
        as Hmime' by by rewrite Hv.
      destruct (has_createReadStream fs) eqn:Hfs.
      * rewrite (serve_converted_stream fs env now fate b file mime s s1)
          by done.
        destruct fate; [|done]. rewrite on_end_run. cbn [snd st_disk].
        by rewrite on_end_disk_other.
      * rewrite (serve_converted_no_stream fs env now fate b file mime s s1)
          by done.
        cbn [st_disk]. by rewrite lookup_delete_ne.
    + rewrite (serve_dispatch_throw fs env now fate b file e s s1) by done.
      cbn [st_disk]. by rewrite lookup_delete_ne.
  - by rewrite serve_no_file.
  - specialize (Hin file eq_refl).
    erewrite serve_throw by done. cbn [st_disk]. by rewrite lookup_delete_ne.
  - done.
Qed.

Lemma other_files_untouched_witness :
  st_disk (serve fs_with_streams env_ok 1700000000005 EmitsEnd
             (request_for (JsString "wav")) (init_state shared_disk))
    !! "/app/uploads/1699999999999-other.png"
  = st_disk (init_state shared_disk)
      !! "/app/uploads/1699999999999-other.png".
Proof.
  apply (other_files_untouched fs_with_streams env_ok 1700000000005 EmitsEnd
           (request_for (JsString "wav")) (init_state shared_disk)
           "/app/uploads/1699999999999-other.png").
  - intros file [= <-]. vm_compute. discriminate.
  - intros b [= <-]. vm_compute. discriminate.
Defined.

(** ** Output names (lines 79-80) *)

Lemma outputFileName_as_stored now v :
  outputFileName now v = storage_filename now ("converted." +:+ template v).
Proof. done. Qed.

(** X11. Two requests whose target formats are plain (no path separator)
    write to the same output file exactly when they read the same
    millisecond on line 79 and ask for the same target format. *)
Theorem outputFileName_eq_iff env n1 v1 n2 v2 :
  no_separator (template v1) = true →
  no_separator (template v2) = true →
  uploads_path env (outputFileName n1 v1)
    = uploads_path env (outputFileName n2 v2) ↔
  n1 = n2 ∧ template v1 = template v2.
Proof.
  intros _ _. unfold uploads_path. rewrite !outputFileName_as_stored. split.
  - intros H. do 2 apply (inj (String.app _)) in H.
    apply storage_filename_inj in H as [-> H].
    by apply (inj (String.app _)) in H.
  - by intros [-> ->].
Qed.

Lemma outputFileName_eq_iff_witness :
  uploads_path env_ok (outputFileName 1700000000005 (JsString "wav"))
    = uploads_path env_ok (outputFileName 1700000000006 (JsString "wav")) ↔
  1700000000005%Z = 1700000000006%Z ∧
  template (JsString "wav") = template (JsString "wav").
Proof.
  apply (outputFileName_eq_iff env_ok 1700000000005 (JsString "wav")
           1700000000006 (JsString "wav")).
  - vm_compute. reflexivity.
  - vm_compute. reflexivity.
Defined.

(** X12. With a plain target format and a plain original name, the output
    path of a request is the very path its upload was stored under exactly
    when the upload was named [converted.<format>] and lines 26 and 79 read
    the same millisecond: only then does the conversion write over its own
    input. *)
Theorem output_path_is_input_path_iff env clock name now v :
  no_separator (template v) = true →
  no_separator name = true →
  uploads_path env (outputFileName now v)
    = uploads_path env (storage_filename clock name) ↔
  now = clock ∧ name = "converted." +:+ template v.
Proof.
  intros _ _. unfold uploads_path. rewrite outputFileName_as_stored. split.
  - intros H. do 2 apply (inj (String.app _)) in H.
    by apply storage_filename_inj in H as [-> ->].
  - by intros [-> ->].
Qed.

Lemma output_path_is_input_path_iff_witness :
  uploads_path env_ok (outputFileName 1700000000005 (JsString "wav"))
    = uploads_path env_ok (storage_filename 1700000000005 "converted.wav") ↔
  1700000000005%Z = 1700000000005%Z ∧
  "converted.wav" = "converted." +:+ template (JsString "wav").
Proof.
  apply (output_path_is_input_path_iff env_ok 1700000000005 "converted.wav"
           1700000000005 (JsString "wav")).
  - vm_compute. reflexivity.
  - vm_compute. reflexivity.
Defined.

(** ** The ['end'] listener with both files in place (lines 125-132) *)

(** X13. When the input file is still on disk, the listener completes without
    raising, leaves neither the input nor the output file behind, keeps its
    hands off [res] and off every other file. *)
Theorem listener_removes_input_and_output i o s p :
  is_Some (st_disk s !! i) →
  p ≠ i → p ≠ o →
  let '(c, s') := on_end i o s in
  c = Normal tt ∧
  st_disk s' !! i = None ∧
  st_disk s' !! o = None ∧
  st_disk s' !! p = st_disk s !! p ∧
  st_res s' = st_res s.
Proof.
  intros Hin Hpi Hpo. rewrite on_end_run.
  pose proof (on_end_removes_both i o s Hin) as Hgone.
  rewrite on_end_run in Hgone. cbn [snd st_disk] in Hgone.
  destruct Hgone as [Hi Ho].
  split_and!; [done|done|done| |done].
  by apply on_end_disk_other.
Qed.

Lemma listener_removes_input_and_output_witness :
  let '(c, s') := on_end (path sample_upload) wav_out
                    (init_state streamed_disk) in
  c = Normal tt ∧
  st_disk s' !! path sample_upload = None ∧
  st_disk s' !! wav_out = None ∧
  st_disk s' !! "/app/uploads/1699999999999-other.png"
    = st_disk (init_state streamed_disk)
        !! "/app/uploads/1699999999999-other.png" ∧
  st_res s' = st_res (init_state streamed_disk).
Proof.
  apply (listener_removes_input_and_output (path sample_upload) wav_out
           (init_state streamed_disk)
           "/app/uploads/1699999999999-other.png").
  - vm_compute. eauto.
  - vm_compute. discriminate.
  - vm_compute. discriminate.
Defined.

(** ** Requests that are not multipart (line 71) *)

(** X14. Without a multipart body [req.body] is undefined and the destructuring
    of line 71 throws: the reply is 500 with a [TypeError], not 400, and the
    handler neither converts nor touches the disk. *)
Theorem non_multipart_request_is_500 fs env now fate s :
  let s' := serve fs env now fate {| req_body := None; req_file := None |} s in
  statusCode (st_res s') = 500 ∧
  (∃ msg, body (st_res s') = Some (BodyJson
     [("error", msg); ("details", "TypeError: " +:+ msg)])) ∧
  st_disk s' = st_disk s ∧
  st_trace s' = st_trace s.
Proof. intros s'. subst s'. cbn. split_and!; [done|by eexists|done|done]. Qed.

(** ** Upload, rejection, cleanup (lines 21-28, 112-113, 134-141) *)

Lemma includes_unlisted (xs : list string) v :
  v ∉ JsString <$> xs → includes xs v = false.
Proof.
  intros Hv. apply not_true_is_false. intros (f & -> & Hf)%includes_true.
  apply Hv. by apply list_elem_of_fmap_2.
Qed.

(** X15. A multipart request whose target format is not supported leaves the
    uploads directory as it found it: the file multer stored under a free
    name is removed again by the catch block, and nothing else is written. *)
Theorem rejected_upload_leaves_no_file env clock now fate name d v disk :
  v ∉ JsString <$> ["mp3"; "wav"; "ogg"; "m4a"; "pdf"; "docx"; "txt";
                    "jpg"; "jpeg"; "png"; "webp"] →
  disk !! uploads_path env (storage_filename clock name) = None →
  st_disk (route env clock now fate
             {| field_targetFormat := v; field_file := Some (name, d) |}
             disk) = disk.
Proof.
  intros Hv Hfree. unfold route, upload_single, multer_store, post_convert.
  cbn [field_file field_targetFormat].
  rewrite serve_unsupported by by apply includes_unlisted.
  cbn [st_disk init_state path]. by apply delete_insert_id.
Qed.

Lemma rejected_upload_leaves_no_file_witness :
  st_disk (route env_ok 1700000000001 1700000000005 EmitsEnd
             {| field_targetFormat := JsString "exe";
                field_file := Some ("setup.bin", "bin-bytes") |}
             sample_disk) = sample_disk.
Proof.
  apply (rejected_upload_leaves_no_file env_ok 1700000000001 1700000000005
           EmitsEnd "setup.bin" "bin-bytes" (JsString "exe") sample_disk).
  - cbn. not_listed.
  - vm_compute. reflexivity.
Defined.

(** ** One converter per request (lines 105-114) *)

Lemma calls_app t1 t2 : calls (t1 ++ t2) = calls t1 ++ calls t2.
Proof. apply omap_app. Qed.

Lemma calls_conversions t : calls (conversions t) = calls t.
Proof.
  unfold calls, conversions.
  induction t as [|e t IH]; [done|]. destruct e; cbn; by rewrite ?IH.
Qed.

Lemma includes_supportedFormats v :
  includes supportedFormats v =
  includes supportedAudioFormats v || includes supportedDocFormats v
  || includes supportedImageFormats v.
Proof.
  unfold supportedFormats, includes. by rewrite !existsb_app, orb_assoc.
Qed.

Lemma dispatch_calls env i o v s :
  calls (st_trace (snd (dispatch env i o v s))) = calls (st_trace s) ∧
    includes supportedFormats v = false ∨
  ∃ c, calls (st_trace (snd (dispatch env i o v s)))
         = calls (st_trace s) ++ [c] ∧
       includes supportedFormats v = true.
Proof.
  rewrite includes_supportedFormats. unfold dispatch.
  destruct (includes supportedAudioFormats v).
  { right. exists Audio. by rewrite convertAudio_trace, calls_app. }
  destruct (includes supportedDocFormats v).
  { right. exists Document. rewrite convertDocument_trace, calls_app.
    by destruct (st_disk s !! i). }
  destruct (includes supportedImageFormats v) eqn:Hi; [|by left].
  right. exists Image.
  destruct (includes_true _ _ Hi) as (f & -> & Hf).
  destruct (convertImage_trace env i o f Hf) as (enc & -> & _).
  by rewrite calls_app.
Qed.

(** X16. A request calls at most one converter, and calls one only when it
    carries a file and its target format is in one of the three arrays;
    whatever happens afterwards (failure, cleanup, streaming), no second
    call is made. *)
Theorem at_most_one_converter_call fs env now fate req disk :
  let t := st_trace (serve fs env now fate req (init_state disk)) in
  calls t = [] ∨
  ∃ c b file,
    calls t = [c] ∧
    req = {| req_body := Some b; req_file := Some file |} ∧
    includes supportedFormats (targetFormat b) = true.
Proof.
  intros t. subst t. rewrite <-calls_conversions.
  destruct req as [[b|] [file|]].
  - rewrite serve_conversions, calls_conversions.
    destruct (dispatch_calls env (path file)
                (uploads_path env (outputFileName now (targetFormat b)))
                (targetFormat b) (init_state disk)) as [[-> _]|(c & -> & Hv)].
    + by left.
    + right. by exists c, b, file.
  - left. by rewrite serve_no_file.
  - left. erewrite serve_throw by done. cbn [st_trace init_state app].
    by rewrite conversions_cleanup_events.
  - by left.
Qed.

(** ** Tolerant cleanup (lines 134-141) *)


(** The uploaded file is already gone when the catch block runs: the reply
    is that of the unsupported format, and the failed removal shows in the
    log alone. *)
Example missing_input_is_only_logged :
  let s' := post_convert env_ok 1700000000005 EmitsEnd
              (request_for (JsString "xyz")) (init_state ∅) in
  statusCode (st_res s') = 500 ∧
  body (st_res s') = Some (BodyJson
    [("error", "Conversion to xyz is not supported");
     ("details", "Error: Conversion to xyz is not supported")]) ∧
  st_trace s' =
    [EvUnlink (path sample_upload);
     EvConsoleError "Error cleaning up input file:"
       (ENOENT "unlink" (path sample_upload))].
Proof. vm_compute. done. Qed.
